(** * DepthEstimation: the training and evaluation drivers

    A shallow embedding of [model/train.py] and [model/evaluate.py].

    Both scripts are straight-line drivers around a handful of external
    collaborators (the network, the geometry layers, the loss modules, the
    optimizer, autograd).  The collaborators are kept abstract behind the
    [Torch] interface; the drivers themselves (the forward pass of a frame
    pair, the non-finite-loss branch, the running means, the epoch loop, the
    checkpoint restore and save) are transcribed statement by statement.

    Python floats are IEEE binary64 numbers: they are modelled by the
    kernel's primitive floats, so [math.isnan] and [math.isinf] are
    [PrimFloat.is_nan] and [PrimFloat.is_infinity].  Python integers are
    [Z].  A name that Python may find unbound ([mean_loss] and its two
    siblings are first assigned inside a branch) is an [option]. *)

From Stdlib Require Import ZArith List Bool String QArith Lia.
From Stdlib Require Import Floats Uint63.
Import ListNotations.

Set Warnings "-inexact-float".
#[local] Open Scope Z_scope.

(* ================================================================== *)
(** ** Exceptions and results *)

(** The exceptions the two scripts can surface to the operator. *)
Inductive exn : Type :=
| OSError            (* raised explicitly when the checkpoint is missing *)
| TypeError          (* Path(None) *)
| NameError          (* a running mean read before its first assignment *)
| ZeroDivisionError. (* [%] by a zero interval *)

Inductive result (A : Type) : Type :=
| Ok (a : A)
| Raise (e : exn).
Arguments Ok {A} a.
Arguments Raise {A} e.

Definition bind {A B : Type} (r : result A) (k : A -> result B) : result B :=
  match r with
  | Ok a => k a
  | Raise e => Raise e
  end.

Notation "x <- r ;; k" := (bind r (fun x => k))
  (at level 61, r at next level, right associativity).

(** Reading a global name: [NameError] when it was never assigned. *)
Definition read_name {A : Type} (v : option A) : result A :=
  match v with
  | Some a => Ok a
  | None => Raise NameError
  end.

(** Python's [a % b] on integers: [ZeroDivisionError] at [b = 0], otherwise
    the floored remainder, which is [Z.modulo]. *)
Definition py_mod (a b : Z) : result Z :=
  if b =? 0 then Raise ZeroDivisionError else Ok (a mod b).

(** An [int] operand of a float operation is converted to a float. *)
Definition float_of_Z (z : Z) : float := PrimFloat.of_uint63 (Uint63.of_Z z).

(** [math.isnan(x) or math.isinf(x)] *)
Definition non_finite (x : float) : bool :=
  PrimFloat.is_nan x || PrimFloat.is_infinity x.

(* ================================================================== *)
(** ** Command line *)

(** The [argparse] namespace of [train.py], restricted to the options the
    driver logic reads. *)
Record Args : Type := {
  batch_size : Z;
  dcl_weight : float;
  sfl_weight : float;
  max_lr : float;
  min_lr : float;
  num_iter : Z;
  validation_interval : Z;
  zero_division_epsilon : float;
  display_interval : Z;
  load_trained_model : bool;
  number_epoch : Z;
  trained_model_path : option string
}.

(** The defaults given to [add_argument]; [--number_epoch] is required. *)
Definition default_args (n_epochs : Z) : Args := {|
  batch_size := 8;
  dcl_weight := 5.0%float;
  sfl_weight := 20.0%float;
  max_lr := 1.0e-3%float;
  min_lr := 1.0e-4%float;
  num_iter := 1000;
  validation_interval := 1;
  zero_division_epsilon := 1.0e-8%float;
  display_interval := 10;
  load_trained_model := false;
  number_epoch := n_epochs;
  trained_model_path := None
|}.

(** Lines 192-195: the weight of the depth consistency loss in [epoch]. *)
Definition depth_consistency_weight (args : Args) (epoch : Z) : float :=
  if epoch <=? 20 then 0.1%float else dcl_weight args.

(* ================================================================== *)
(** ** The cyclic learning-rate schedule *)

(** Modelled from the spec: [scheduler.CyclicLR] is imported by [train.py]
    but its module is not among the sources.  The schedule is the triangular
    waveform of the specification: the rate rises linearly from the minimum
    to the maximum over the first half-cycle, falls linearly back over the
    second, and repeats; it depends on the cumulative iteration count
    only.  Rates are exact rationals. *)
Definition CyclicLR (base_lr max_lr : Q) (step_size : Z) (batch_iteration : Z) : Q :=
  let pos := batch_iteration mod (2 * step_size) in
  if pos <=? step_size
  then (base_lr + (max_lr - base_lr) * (inject_Z pos / inject_Z step_size))%Q
  else (max_lr - (max_lr - base_lr) * (inject_Z (pos - step_size) / inject_Z step_size))%Q.

(** The schedule of the default command line: [--min_lr 1e-4],
    [--max_lr 1e-3], half-cycle [--num_iter 1000]. *)
Definition default_schedule : Z -> Q := CyclicLR (1 # 10000) (1 # 1000) 1000.

(* ================================================================== *)
(** ** External collaborators *)

(** Everything the drivers call but do not define: tensors and their
    arithmetic, the network, the custom layers, the loss modules, autograd
    and the optimizer.  [Net] is the mutable torch state reachable from
    [depth_estimation_model] and [optimizer]: weights, accumulated
    gradients, Adam moments and the current learning rate. *)
Class Torch : Type := {
  Tensor : Type;
  Net : Type;
  StateDict : Type;
  (* tensor arithmetic and conversions *)
  tmul : Tensor -> Tensor -> Tensor;          (* a * b, broadcasting *)
  tadd : Tensor -> Tensor -> Tensor;          (* a + b *)
  fmul : float -> Tensor -> Tensor;           (* python_float * tensor *)
  torch_abs : Tensor -> Tensor;               (* torch.abs *)
  item : Tensor -> float;                     (* tensor.item() *)
  (* models.FCDenseNet *)
  depth_estimation_model : Net -> Tensor -> Tensor;
  state_dict : Net -> StateDict;
  load_state_dict : StateDict -> Net -> Net;
  (* layers.* *)
  depth_scaling_layer : Tensor -> Tensor -> Tensor -> Tensor * Tensor;
  flow_from_depth_layer : Tensor -> Tensor -> Tensor -> Tensor -> Tensor -> Tensor;
  depth_warping_layer :
    Tensor -> Tensor -> Tensor -> Tensor -> Tensor -> Tensor -> Tensor * Tensor;
  (* losses.* *)
  sparse_flow_loss_function : Tensor -> Tensor -> Tensor -> Tensor;
  depth_consistency_loss_function : Tensor -> Tensor -> Tensor -> Tensor -> Tensor;
  (* scheduler.CyclicLR.batch_step, optimizer and autograd *)
  batch_step : Z -> Net -> Net;
  zero_grad : Net -> Net;
  backward : Tensor -> Net -> Net;
  clip_grad_norm_ : float -> Net -> Net;
  optimizer_step : Net -> Net;
  (* log_root / 'checkpoint_model_epoch_{}_validation_{}.pt'.format(..) *)
  model_path_epoch : Z -> float -> string
}.

(** The calls the training loop makes on the optimizer, the scheduler, the
    summary writer and the checkpoint helper, in program order. *)
Inductive event : Type :=
| EvBatchStep (batch_iteration : Z)
| EvZeroGrad
| EvBackward
| EvClipGradNorm (max_norm : float)
| EvOptimizerStep
| EvTrainingScalars (overall depth_consistency sparse_flow : float) (global_step : Z)
| EvValidationScalars (overall depth_consistency sparse_flow : float) (epoch : Z)
| EvSaveModel (epoch step : Z) (model_path : string).

Definition is_batch_step (e : event) : bool :=
  match e with EvBatchStep _ => true | _ => false end.

Definition is_optimizer_step (e : event) : bool :=
  match e with EvOptimizerStep => true | _ => false end.

(** What may come right before [optimizer.step()]: the clipping of the
    gradient norm to 10.0, or the zeroing of the gradients. *)
Definition licenses (prev : option event) : Prop :=
  prev = Some (EvClipGradNorm 10.0%float) \/ prev = Some EvZeroGrad.

(** Every [optimizer.step()] of [tr] comes right after a licensing call;
    [prev] is the call made just before [tr], if any. *)
Fixpoint steps_licensed (prev : option event) (tr : list event) : Prop :=
  match tr with
  | [] => True
  | e :: tr' => (e = EvOptimizerStep -> licenses prev) /\ steps_licensed (Some e) tr'
  end.

Section Drivers.

Context {T : Torch}.

(* ================================================================== *)
(** ** One batch of the SfM data loader *)

(** The tuple a loader yields ([folders] and [file_names] are only shown on
    the progress bar and are left out). *)
Record Batch : Type := {
  colors_1 : Tensor;
  colors_2 : Tensor;
  sparse_depths_1 : Tensor;
  sparse_depths_2 : Tensor;
  sparse_depth_masks_1 : Tensor;
  sparse_depth_masks_2 : Tensor;
  sparse_flows_1 : Tensor;
  sparse_flows_2 : Tensor;
  sparse_flow_masks_1 : Tensor;
  sparse_flow_masks_2 : Tensor;
  boundaries : Tensor;
  rotations_1_wrt_2 : Tensor;
  rotations_2_wrt_1 : Tensor;
  translations_1_wrt_2 : Tensor;
  translations_2_wrt_1 : Tensor;
  intrinsics : Tensor
}.

(** The local names of the loop body once the two losses are computed.
    Names the body rebinds ([colors_1], [sparse_flows_1],
    [flows_from_depth_1], ...) hold their last value. *)
Record Forward : Type := {
  v_colors_1 : Tensor;
  v_colors_2 : Tensor;
  v_predicted_depth_maps_1 : Tensor;
  v_predicted_depth_maps_2 : Tensor;
  v_scaled_depth_maps_1 : Tensor;
  v_scaled_depth_maps_2 : Tensor;
  v_sparse_flow_masks_1 : Tensor;
  v_sparse_flow_masks_2 : Tensor;
  v_sparse_flows_1 : Tensor;
  v_sparse_flows_2 : Tensor;
  v_flows_from_depth_1 : Tensor;
  v_flows_from_depth_2 : Tensor;
  v_sparse_flow_loss : Tensor;
  v_warped_depth_maps_2_to_1 : Tensor;
  v_intersect_masks_1 : Tensor;
  v_warped_depth_maps_1_to_2 : Tensor;
  v_intersect_masks_2 : Tensor;
  v_depth_consistency_loss : Tensor;
  v_loss : Tensor
}.

(** Lines 224-264 (training) and 379-419 (validation).  The two copies of
    the body differ in one place only: what is handed to the depth scaling
    layer.  [pre] is that difference: the identity in the training loop,
    [torch.abs] in the validation loop. *)
Definition forward_pair (pre : Tensor -> Tensor) (args : Args)
    (depth_consistency_weight : float) (net : Net) (b : Batch) : Forward :=
  let colors_1 := tmul (boundaries b) (colors_1 b) in
  let colors_2 := tmul (boundaries b) (colors_2 b) in
  let predicted_depth_maps_1 := depth_estimation_model net colors_1 in
  let predicted_depth_maps_2 := depth_estimation_model net colors_2 in
  let scaled_depth_maps_1 :=
    fst (depth_scaling_layer (pre predicted_depth_maps_1)
           (sparse_depths_1 b) (sparse_depth_masks_1 b)) in
  let scaled_depth_maps_2 :=
    fst (depth_scaling_layer (pre predicted_depth_maps_2)
           (sparse_depths_2 b) (sparse_depth_masks_2 b)) in
  (* Sparse flow loss *)
  let flows_from_depth_1 :=
    flow_from_depth_layer scaled_depth_maps_1 (boundaries b)
      (translations_1_wrt_2 b) (rotations_1_wrt_2 b) (intrinsics b) in
  let flows_from_depth_2 :=
    flow_from_depth_layer scaled_depth_maps_2 (boundaries b)
      (translations_2_wrt_1 b) (rotations_2_wrt_1 b) (intrinsics b) in
  let sparse_flow_masks_1 := tmul (sparse_flow_masks_1 b) (boundaries b) in
  let sparse_flow_masks_2 := tmul (sparse_flow_masks_2 b) (boundaries b) in
  let sparse_flows_1 := tmul (sparse_flows_1 b) (boundaries b) in
  let sparse_flows_2 := tmul (sparse_flows_2 b) (boundaries b) in
  let flows_from_depth_1 := tmul flows_from_depth_1 (boundaries b) in
  let flows_from_depth_2 := tmul flows_from_depth_2 (boundaries b) in
  let sparse_flow_loss :=
    fmul (sfl_weight args * 0.5)%float
      (tadd (sparse_flow_loss_function sparse_flows_1 flows_from_depth_1 sparse_flow_masks_1)
            (sparse_flow_loss_function sparse_flows_2 flows_from_depth_2 sparse_flow_masks_2)) in
  (* Depth consistency loss *)
  let warp_1 :=
    depth_warping_layer scaled_depth_maps_1 scaled_depth_maps_2 (boundaries b)
      (translations_1_wrt_2 b) (rotations_1_wrt_2 b) (intrinsics b) in
  let warp_2 :=
    depth_warping_layer scaled_depth_maps_2 scaled_depth_maps_1 (boundaries b)
      (translations_2_wrt_1 b) (rotations_2_wrt_1 b) (intrinsics b) in
  let depth_consistency_loss :=
    fmul (depth_consistency_weight * 0.5)%float
      (tadd (depth_consistency_loss_function scaled_depth_maps_1 (fst warp_1) (snd warp_1)
               (intrinsics b))
            (depth_consistency_loss_function scaled_depth_maps_2 (fst warp_2) (snd warp_2)
               (intrinsics b))) in
  {| v_colors_1 := colors_1;
     v_colors_2 := colors_2;
     v_predicted_depth_maps_1 := predicted_depth_maps_1;
     v_predicted_depth_maps_2 := predicted_depth_maps_2;
     v_scaled_depth_maps_1 := scaled_depth_maps_1;
     v_scaled_depth_maps_2 := scaled_depth_maps_2;
     v_sparse_flow_masks_1 := sparse_flow_masks_1;
     v_sparse_flow_masks_2 := sparse_flow_masks_2;
     v_sparse_flows_1 := sparse_flows_1;
     v_sparse_flows_2 := sparse_flows_2;
     v_flows_from_depth_1 := flows_from_depth_1;
     v_flows_from_depth_2 := flows_from_depth_2;
     v_sparse_flow_loss := sparse_flow_loss;
     v_warped_depth_maps_2_to_1 := fst warp_1;
     v_intersect_masks_1 := snd warp_1;
     v_warped_depth_maps_1_to_2 := fst warp_2;
     v_intersect_masks_2 := snd warp_2;
     v_depth_consistency_loss := depth_consistency_loss;
     v_loss := tadd depth_consistency_loss sparse_flow_loss |}.

(** Lines 230-233: the training loop scales the raw prediction. *)
Definition train_forward := forward_pair (fun predicted => predicted).

(** Lines 385-388: the validation loop scales [torch.abs] of it. *)
Definition validation_forward := forward_pair torch_abs.

(** The same frame pair with the roles of the two views exchanged. *)
Definition swap_views (b : Batch) : Batch :=
  {| colors_1 := colors_2 b; colors_2 := colors_1 b;
     sparse_depths_1 := sparse_depths_2 b; sparse_depths_2 := sparse_depths_1 b;
     sparse_depth_masks_1 := sparse_depth_masks_2 b;
     sparse_depth_masks_2 := sparse_depth_masks_1 b;
     sparse_flows_1 := sparse_flows_2 b; sparse_flows_2 := sparse_flows_1 b;
     sparse_flow_masks_1 := sparse_flow_masks_2 b;
     sparse_flow_masks_2 := sparse_flow_masks_1 b;
     boundaries := boundaries b;
     rotations_1_wrt_2 := rotations_2_wrt_1 b; rotations_2_wrt_1 := rotations_1_wrt_2 b;
     translations_1_wrt_2 := translations_2_wrt_1 b;
     translations_2_wrt_1 := translations_1_wrt_2 b;
     intrinsics := intrinsics b |}.

(** [x] is some tensor multiplied elementwise by the boundary mask. *)
Definition masked_by (boundary x : Tensor) : Prop :=
  exists raw, x = tmul raw boundary \/ x = tmul boundary raw.

(* ================================================================== *)
(** ** Checkpoints and the file system *)

(** Modelled from the spec: [utils.save_model] is not among the sources.
    The dictionary it writes is read back at lines 169-172 under the keys
    ['model'], ['epoch'] and ['step']; following the specification, the
    checkpoint retains the epoch number and the step count it is given,
    next to the weights. *)
Record Checkpoint : Type := {
  ck_model : StateDict;
  ck_epoch : Z;
  ck_step : Z;
  ck_validation : float
}.

(** The checkpoint files on disk, most recent write first.  Only files
    that [torch.load] reads back as a checkpoint dictionary are modelled: a
    directory or an unreadable file at the path, on which [torch.load]
    would fail in ways of its own, is outside the model. *)
Definition Files : Type := list (string * Checkpoint).

(** [Path(p).exists()] followed by [torch.load(p)]: [None] when there is no
    such file. *)
Fixpoint torch_load (fs : Files) (p : string) : option Checkpoint :=
  match fs with
  | [] => None
  | (q, c) :: fs' => if String.eqb q p then Some c else torch_load fs' p
  end.

Definition torch_save (p : string) (c : Checkpoint) (fs : Files) : Files :=
  (p, c) :: fs.

(* ================================================================== *)
(** ** The state of the training script *)

(** The module-level names that survive from one batch to the next, with
    the torch state, the checkpoint files and the calls made so far. *)
Record Globals : Type := {
  step : Z;
  flag : Z;
  mean_loss : option float;
  mean_depth_consistency_loss : option float;
  mean_sparse_flow_loss : option float;
  net : Net;
  files : Files;
  trace : list event
}.

(** The incremental mean of lines 284-287 and 427-431:
    [(mean * batch + cur) / (batch + 1.0)]. *)
Definition running_mean (mean : float) (batch : Z) (cur : float) : float :=
  ((mean * float_of_Z batch + cur) / (float_of_Z batch + 1.0))%float.

(** Lines 203-345: the body of the training loop for the batch numbered
    [batch] of [epoch]. *)
Definition train_batch (args : Args) (epoch batch : Z) (b : Batch) (g : Globals)
    : result Globals :=
  let net1 := batch_step (step g) (net g) in
  let f := train_forward args (depth_consistency_weight args epoch) net1 b in
  if non_finite (item (v_loss f)) then
    (* zero_grad; backward; zero_grad; step; continue *)
    Ok {| step := step g;
          flag := flag g;
          mean_loss := mean_loss g;
          mean_depth_consistency_loss := mean_depth_consistency_loss g;
          mean_sparse_flow_loss := mean_sparse_flow_loss g;
          net := optimizer_step (zero_grad (backward (v_loss f) (zero_grad net1)));
          files := files g;
          trace := trace g ++ [EvBatchStep (step g); EvZeroGrad; EvBackward; EvZeroGrad;
                               EvOptimizerStep] |}
  else
    let flag' := flag g + 1 in
    let net2 :=
      optimizer_step (clip_grad_norm_ 10.0%float (backward (v_loss f) (zero_grad net1))) in
    means <-
      (if (batch =? 0) || (flag' =? 1) then
         Ok (item (v_loss f), item (v_depth_consistency_loss f), item (v_sparse_flow_loss f))
       else
         m <- read_name (mean_loss g) ;;
         d <- read_name (mean_depth_consistency_loss g) ;;
         s <- read_name (mean_sparse_flow_loss g) ;;
         Ok (running_mean m batch (item (v_loss f)),
             running_mean d batch (item (v_depth_consistency_loss f)),
             running_mean s batch (item (v_sparse_flow_loss f)))) ;;
    let '(m, d, s) := means in
    let step' := step g + 1 in
    (* display every [display_each] batches *)
    _ <- py_mod batch (display_interval args) ;;
    Ok {| step := step';
          flag := flag';
          mean_loss := Some m;
          mean_depth_consistency_loss := Some d;
          mean_sparse_flow_loss := Some s;
          net := net2;
          files := files g;
          trace := trace g ++ [EvBatchStep (step g); EvZeroGrad; EvBackward;
                               EvClipGradNorm 10.0%float; EvOptimizerStep;
                               EvTrainingScalars m d s step'] |}.

(** The total loss of the batch as [train_batch] computes it: after the
    scheduler was stepped, with the warm-up weight of [epoch]. *)
Definition batch_loss (args : Args) (epoch : Z) (b : Batch) (g : Globals) : Tensor :=
  v_loss (train_forward args (depth_consistency_weight args epoch)
            (batch_step (step g) (net g)) b).

(** The three running means have been assigned. *)
Definition means_bound (g : Globals) : Prop :=
  mean_loss g <> None /\ mean_depth_consistency_loss g <> None /\
  mean_sparse_flow_loss g <> None.

(** What the training loop maintains: once a finite batch has been counted
    in [flag], the running means are assigned. *)
Definition means_ready (g : Globals) : Prop := flag g = 0 \/ means_bound g.

(** [g'] comes after [g]: its calls are those of [g] followed by calls in
    which every [optimizer.step()] is licensed from within. *)
Definition comes_after (g g' : Globals) : Prop :=
  exists evs, trace g' = trace g ++ evs /\ forall prev, steps_licensed prev evs.

(** [for batch, (...) in enumerate(train_loader)] *)
Fixpoint train_loop (args : Args) (epoch batch : Z) (bs : list Batch) (g : Globals)
    : result Globals :=
  match bs with
  | [] => Ok g
  | b :: bs' =>
      g' <- train_batch args epoch batch b g ;;
      train_loop args epoch (batch + 1) bs' g'
  end.

(** Lines 362-458: the body of the validation loop, under [torch.no_grad()]. *)
Definition validation_batch (args : Args) (epoch batch : Z) (b : Batch) (g : Globals)
    : result Globals :=
  let f := validation_forward args (depth_consistency_weight args epoch) (net g) b in
  means <-
    (if negb (PrimFloat.is_nan (item (v_loss f))) then
       if batch =? 0 then
         Ok (Some (item (v_loss f)), Some (item (v_depth_consistency_loss f)),
             Some (item (v_sparse_flow_loss f)))
       else
         m <- read_name (mean_loss g) ;;
         d <- read_name (mean_depth_consistency_loss g) ;;
         s <- read_name (mean_sparse_flow_loss g) ;;
         Ok (Some (running_mean m batch (item (v_loss f))),
             Some (running_mean d batch (item (v_depth_consistency_loss f))),
             Some (running_mean s batch (item (v_sparse_flow_loss f))))
     else Ok (mean_loss g, mean_depth_consistency_loss g, mean_sparse_flow_loss g)) ;;
  let '(om, od, os) := means in
  (* display every [display_each] batches *)
  _ <- py_mod batch (display_interval args) ;;
  (* writer.add_scalars('Validation', {...}, epoch) *)
  m <- read_name om ;;
  d <- read_name od ;;
  s <- read_name os ;;
  Ok {| step := step g;
        flag := flag g;
        mean_loss := om;
        mean_depth_consistency_loss := od;
        mean_sparse_flow_loss := os;
        net := net g;
        files := files g;
        trace := trace g ++ [EvValidationScalars m d s epoch] |}.

(** [for batch, (...) in enumerate(validation_loader)] *)
Fixpoint validation_loop (args : Args) (epoch batch : Z) (bs : list Batch) (g : Globals)
    : result Globals :=
  match bs with
  | [] => Ok g
  | b :: bs' =>
      g' <- validation_batch args epoch batch b g ;;
      validation_loop args epoch (batch + 1) bs' g'
  end.

(** Lines 461-465: [utils.save_model(model, optimizer, epoch=epoch + 1,
    step=step, model_path=model_path_epoch, validation_loss=...)]. *)
Definition save_checkpoint (epoch : Z) (g : Globals) : result Globals :=
  s <- read_name (mean_sparse_flow_loss g) ;;
  let model_path := model_path_epoch epoch s in
  Ok {| step := step g;
        flag := flag g;
        mean_loss := mean_loss g;
        mean_depth_consistency_loss := mean_depth_consistency_loss g;
        mean_sparse_flow_loss := mean_sparse_flow_loss g;
        net := net g;
        files := torch_save model_path
                   {| ck_model := state_dict (net g);
                      ck_epoch := epoch + 1;
                      ck_step := step g;
                      ck_validation := s |} (files g);
        trace := trace g ++ [EvSaveModel (epoch + 1) (step g) model_path] |}.

(** Lines 184-465: one turn of the epoch loop. *)
Definition run_epoch (args : Args) (train_loader : Z -> list Batch)
    (validation_loader : list Batch) (epoch : Z) (g : Globals) : result Globals :=
  g1 <- train_loop args epoch 0 (train_loader epoch) g ;;
  r <- py_mod epoch (validation_interval args) ;;
  if negb (r =? 0) then Ok g1 (* continue *)
  else
    g2 <- validation_loop args epoch 0 validation_loader g1 ;;
    save_checkpoint epoch g2.

Fixpoint epoch_loop (args : Args) (train_loader : Z -> list Batch)
    (validation_loader : list Batch) (epochs : list Z) (g : Globals) : result Globals :=
  match epochs with
  | [] => Ok g
  | epoch :: rest =>
      g' <- run_epoch args train_loader validation_loader epoch g ;;
      epoch_loop args train_loader validation_loader rest g'
  end.

(** Python's [range(a, b)]. *)
Definition range (a b : Z) : list Z :=
  map (fun k => a + Z.of_nat k) (seq 0 (Z.to_nat (b - a))).

(** Lines 166-179: where the epoch loop starts, from a checkpoint or from
    scratch. *)
Definition restore (args : Args) (fs : Files) (net0 : Net) : result (Z * Z * Net) :=
  if load_trained_model args then
    match trained_model_path args with
    | None => Raise TypeError
    | Some p =>
        match torch_load fs p with
        | Some state =>
            Ok (ck_epoch state, ck_step state, load_state_dict (ck_model state) net0)
        | None => Raise OSError
        end
    end
  else Ok (0, 0, net0).

(** [train.py] from line 149 on: [net0] is the freshly built network with
    its optimizer, [fs] the checkpoint files present at start, and the two
    loaders are what [enumerate] goes through ([train_loader] is shuffled
    anew in every epoch). *)
Definition train_main (args : Args) (fs : Files) (net0 : Net)
    (train_loader : Z -> list Batch) (validation_loader : list Batch) : result Globals :=
  init <- restore args fs net0 ;;
  let '(epoch, step0, net1) := init in
  epoch_loop args train_loader validation_loader
    (range epoch (number_epoch args + 1))
    {| step := step0;
       flag := 0;
       mean_loss := None;
       mean_depth_consistency_loss := None;
       mean_sparse_flow_loss := None;
       net := net1;
       files := fs;
       trace := [] |}.

(** [evaluate.py] from line 110 on: the depth maps written for the test
    frames, each loader item reduced to [(colors_1, boundaries)]. *)
Definition evaluate_main (fs : Files) (trained_model_path : string) (net0 : Net)
    (test_loader : list (Tensor * Tensor)) : result (list Tensor) :=
  match torch_load fs trained_model_path with
  | Some state =>
      let net1 := load_state_dict (ck_model state) net0 in
      Ok (map (fun cb =>
                 let colors_1 := tmul (snd cb) (fst cb) in
                 let predicted_depth_maps_1 := depth_estimation_model net1 colors_1 in
                 tmul (snd cb) predicted_depth_maps_1)
              test_loader)
  | None => Raise OSError
  end.

End Drivers.

(* ================================================================== *)
(** ** A small interpretation of the collaborators

    One-pixel tensors (a tensor is a float), a network that returns its
    input, layers that pass the depth through, and an optimizer that only
    counts how often [step()] ran.  It is used to run the drivers on
    concrete data. *)
Module Toy.

Definition l1 (a b m : float) : float := (PrimFloat.abs (a - b) * m)%float.

#[export] Instance torch : Torch := {|
  Tensor := float;
  Net := Z;
  StateDict := Z;
  tmul := PrimFloat.mul;
  tadd := PrimFloat.add;
  fmul := PrimFloat.mul;
  torch_abs := PrimFloat.abs;
  item := fun x => x;
  depth_estimation_model := fun _ x => x;
  state_dict := fun n => n;
  load_state_dict := fun s _ => s;
  depth_scaling_layer := fun predicted sparse mask => (predicted, 0%float);
  flow_from_depth_layer := fun depth _ translation _ _ => (depth * translation)%float;
  depth_warping_layer := fun depth_1 depth_2 boundary _ _ _ => (depth_2, boundary);
  sparse_flow_loss_function := l1;
  depth_consistency_loss_function := fun depth warped mask _ => l1 depth warped mask;
  batch_step := fun _ n => n;
  zero_grad := fun n => n;
  backward := fun _ n => n;
  clip_grad_norm_ := fun _ n => n;
  optimizer_step := fun n => n + 1;
  model_path_epoch := fun _ _ => "checkpoint.pt"%string
|}.

(** A frame pair with colours [c1] and [c2], sparse flows of 3, and every
    other tensor (masks, poses, intrinsics) equal to 1. *)
Definition pair_batch (c1 c2 : float) : Batch :=
  {| colors_1 := c1; colors_2 := c2;
     sparse_depths_1 := 1%float; sparse_depths_2 := 1%float;
     sparse_depth_masks_1 := 1%float; sparse_depth_masks_2 := 1%float;
     sparse_flows_1 := 3%float; sparse_flows_2 := 3%float;
     sparse_flow_masks_1 := 1%float; sparse_flow_masks_2 := 1%float;
     boundaries := 1%float;
     rotations_1_wrt_2 := 1%float; rotations_2_wrt_1 := 1%float;
     translations_1_wrt_2 := 1%float; translations_2_wrt_1 := 1%float;
     intrinsics := 1%float |}.

(** A well-behaved frame pair, one whose colours are NaN, and one for which
    the network answers negative depths. *)
Definition good_batch : Batch := pair_batch 2%float 4%float.
Definition nan_batch : Batch := pair_batch PrimFloat.nan PrimFloat.nan.
Definition negative_batch : Batch := pair_batch (-2)%float (-4)%float.

(** The script's globals right after start-up, nothing restored. *)
Definition fresh : Globals :=
  {| step := 0; flag := 0;
     mean_loss := None; mean_depth_consistency_loss := None;
     mean_sparse_flow_loss := None;
     net := 0; files := []; trace := [] |}.

(** The globals after seven finite batches. *)
Definition warm : Globals :=
  {| step := 7; flag := 7;
     mean_loss := Some 21%float; mean_depth_consistency_loss := Some 1%float;
     mean_sparse_flow_loss := Some 20%float;
     net := 7; files := []; trace := [] |}.

(** Resuming from the checkpoint at [p]. *)
Definition resume_args (n_epochs : Z) (p : string) : Args :=
  {| batch_size := 8;
     dcl_weight := 5.0%float;
     sfl_weight := 20.0%float;
     max_lr := 1.0e-3%float;
     min_lr := 1.0e-4%float;
     num_iter := 1000;
     validation_interval := 1;
     zero_division_epsilon := 1.0e-8%float;
     display_interval := 10;
     load_trained_model := true;
     number_epoch := n_epochs;
     trained_model_path := Some p |}.

(** The disk after a run of four epochs: the checkpoint of the last epoch. *)
Definition last_files : Files :=
  [("last.pt"%string,
    {| ck_model := 9; ck_epoch := 5; ck_step := 12; ck_validation := 1%float |})].

(** The default command line with [--validation_interval 0]. *)
Definition never_validating_args (n_epochs : Z) : Args :=
  {| batch_size := 8;
     dcl_weight := 5.0%float;
     sfl_weight := 20.0%float;
     max_lr := 1.0e-3%float;
     min_lr := 1.0e-4%float;
     num_iter := 1000;
     validation_interval := 0;
     zero_division_epsilon := 1.0e-8%float;
     display_interval := 10;
     load_trained_model := false;
     number_epoch := n_epochs;
     trained_model_path := None |}.

End Toy.

(* ================================================================== *)
(** ** Reading the log of calls *)

Definition is_clip (e : event) : bool :=
  match e with EvClipGradNorm _ => true | _ => false end.

(** How many calls of [tr] are of the kind [f]. *)
Definition calls (f : event -> bool) (tr : list event) : nat :=
  List.length (filter f tr).

(** The [epoch] arguments of the [utils.save_model] calls of [tr], in
    order. *)
Fixpoint saved_epochs (tr : list event) : list Z :=
  match tr with
  | [] => []
  | EvSaveModel epoch _ _ :: tr' => epoch :: saved_epochs tr'
  | _ :: tr' => saved_epochs tr'
  end.

(** The [batch_iteration] arguments of the [lr_scheduler.batch_step]
    calls of [tr], in order. *)
Fixpoint batch_step_args (tr : list event) : list Z :=
  match tr with
  | [] => []
  | EvBatchStep batch_iteration :: tr' => batch_iteration :: batch_step_args tr'
  | _ :: tr' => batch_step_args tr'
  end.

(** The iterations [l] fed to the scheduler by a counter that starts at
    [s] and ends at [s']: each call is fed the current count, which then
    stays or moves up by one. *)
Fixpoint stepped_from (s : Z) (l : list Z) (s' : Z) : Prop :=
  match l with
  | [] => s' = s
  | x :: l' => x = s /\ (stepped_from s l' s' \/ stepped_from (s + 1) l' s')
  end.

(** The [save_model] epochs that [epoch] contributes: [epoch + 1] when it
    is a validation epoch (line 349), nothing otherwise. *)
Definition epoch_saves (args : Args) (epoch : Z) : list Z :=
  if epoch mod validation_interval args =? 0 then [epoch + 1] else [].

(** The bookkeeping between [g] and a later [g']: the calls made in
    between clip the gradient as many times as [step] advanced, [flag]
    advanced as much as [step], and the optimizer stepped as often as the
    scheduler. *)
Definition accounted {T : Torch} (g g' : Globals) : Prop :=
  exists evs,
    trace g' = trace g ++ evs /\
    Z.of_nat (calls is_clip evs) = step g' - step g /\
    flag g' - flag g = step g' - step g /\
    calls is_optimizer_step evs = calls is_batch_step evs.

(** Lines 181 and 183: the globals with which the epoch loop is entered. *)
Definition entry_globals {T : Torch} (step0 : Z) (net1 : Net) (fs : Files) : Globals :=
  {| step := step0;
     flag := 0;
     mean_loss := None;
     mean_depth_consistency_loss := None;
     mean_sparse_flow_loss := None;
     net := net1;
     files := fs;
     trace := [] |}.

(** An interpretation with integer tensors, whose sum commutes. *)
Module ToyZ.

#[export] Instance torch : Torch := {|
  Tensor := Z;
  Net := Z;
  StateDict := Z;
  tmul := Z.mul;
  tadd := Z.add;
  fmul := fun _ x => x;
  torch_abs := Z.abs;
  item := float_of_Z;
  depth_estimation_model := fun _ x => x;
  state_dict := fun n => n;
  load_state_dict := fun s _ => s;
  depth_scaling_layer := fun predicted sparse mask => (predicted, 0);
  flow_from_depth_layer := fun depth _ translation _ _ => depth * translation;
  depth_warping_layer := fun depth_1 depth_2 boundary _ _ _ => (depth_2, boundary);
  sparse_flow_loss_function := fun a b m => Z.abs (a - b) * m;
  depth_consistency_loss_function := fun depth warped mask _ => Z.abs (depth - warped) * mask;
  batch_step := fun _ n => n;
  zero_grad := fun n => n;
  backward := fun _ n => n;
  clip_grad_norm_ := fun _ n => n;
  optimizer_step := fun n => n + 1;
  model_path_epoch := fun _ _ => "checkpoint.pt"%string
|}.

(** A frame pair whose two views differ in every tensor. *)
Definition lopsided_batch : Batch :=
  {| colors_1 := 2; colors_2 := 5;
     sparse_depths_1 := 1; sparse_depths_2 := 3;
     sparse_depth_masks_1 := 1; sparse_depth_masks_2 := 0;
     sparse_flows_1 := 3; sparse_flows_2 := 7;
     sparse_flow_masks_1 := 1; sparse_flow_masks_2 := 2;
     boundaries := 1;
     rotations_1_wrt_2 := 1; rotations_2_wrt_1 := 4;
     translations_1_wrt_2 := 2; translations_2_wrt_1 := 3;
     intrinsics := 1 |}.

End ToyZ.

(** An interpretation with a single weight and the Adam optimizer.
    [step()] follows [torch.optim.Adam] (betas 0.9 and 0.999, eps 1e-8, no
    weight decay): a parameter whose gradient is [None] is skipped, any
    other goes through the moment updates and the bias-corrected move.
    [zero_grad()] comes in the two flavours torch has had: [set_to_none]
    drops the gradient, the older behaviour fills it with zeros.  The
    gradient of a loss with respect to the weight is taken to be the loss
    value, and the scheduler leaves the rate alone. *)
Module OneWeight.

Record net : Type := {
  weight : float;
  grad : option float;
  exp_avg : float;
  exp_avg_sq : float;
  adam_step : Z;
  lr : float
}.

Definition set_grad (g : option float) (n : net) : net :=
  {| weight := weight n; grad := g; exp_avg := exp_avg n;
     exp_avg_sq := exp_avg_sq n; adam_step := adam_step n; lr := lr n |}.

(** [b ** t] for a step count [t]. *)
Definition float_pow (b : float) (t : Z) : float :=
  Z.iter t (fun x => x * b)%float 1%float.

(** The update of one parameter with gradient [g]. *)
Definition adam (n : net) (g : float) : net :=
  let t := adam_step n + 1 in
  let m := (0.9 * exp_avg n + 0.1 * g)%float in
  let v := (0.999 * exp_avg_sq n + 0.001 * (g * g))%float in
  let bias_correction1 := (1 - float_pow 0.9 t)%float in
  let bias_correction2 := (1 - float_pow 0.999 t)%float in
  let step_size := (lr n / bias_correction1)%float in
  let denom := (PrimFloat.sqrt v / PrimFloat.sqrt bias_correction2 + 1.0e-8)%float in
  {| weight := (weight n - step_size * (m / denom))%float;
     grad := grad n;
     exp_avg := m;
     exp_avg_sq := v;
     adam_step := t;
     lr := lr n |}.

Definition adam_optimizer_step (n : net) : net :=
  match grad n with
  | None => n
  | Some g => adam n g
  end.

Definition adam_zero_grad (set_to_none : bool) (n : net) : net :=
  if set_to_none then set_grad None n
  else match grad n with
       | None => n
       | Some _ => set_grad (Some 0%float) n
       end.

Definition accumulate (l : float) (n : net) : net :=
  match grad n with
  | None => set_grad (Some l) n
  | Some g => set_grad (Some (g + l)%float) n
  end.

Definition clip (max_norm : float) (n : net) : net :=
  match grad n with
  | None => n
  | Some g =>
      let clip_coef := (max_norm / (PrimFloat.abs g + 1.0e-6))%float in
      if (clip_coef <? 1)%float then set_grad (Some (g * clip_coef)%float) n else n
  end.

#[export] Instance torch (set_to_none : bool) : Torch := {|
  Tensor := float;
  Net := net;
  StateDict := float;
  tmul := PrimFloat.mul;
  tadd := PrimFloat.add;
  fmul := PrimFloat.mul;
  torch_abs := PrimFloat.abs;
  item := fun x => x;
  depth_estimation_model := fun n x => (weight n * x)%float;
  state_dict := weight;
  load_state_dict := fun w n =>
    {| weight := w; grad := grad n; exp_avg := exp_avg n;
       exp_avg_sq := exp_avg_sq n; adam_step := adam_step n; lr := lr n |};
  depth_scaling_layer := fun predicted sparse mask => (predicted, 0%float);
  flow_from_depth_layer := fun depth _ translation _ _ => (depth * translation)%float;
  depth_warping_layer := fun depth_1 depth_2 boundary _ _ _ => (depth_2, boundary);
  sparse_flow_loss_function := Toy.l1;
  depth_consistency_loss_function := fun depth warped mask _ => Toy.l1 depth warped mask;
  batch_step := fun _ n => n;
  zero_grad := adam_zero_grad set_to_none;
  backward := accumulate;
  clip_grad_norm_ := clip;
  optimizer_step := adam_optimizer_step;
  model_path_epoch := fun _ _ => "checkpoint.pt"%string
|}.

(** Weights and optimizer state: everything of the torch state but the
    gradient buffer. *)
Definition weights_and_optimizer (n : net) : float * float * float * Z * float :=
  (weight n, exp_avg n, exp_avg_sq n, adam_step n, lr n).

Definition pair_batch (set_to_none : bool) (c1 c2 : float) : @Batch (torch set_to_none) :=
  @Build_Batch (torch set_to_none)
    c1 c2            (* colors *)
    1%float 1%float  (* sparse depths *)
    1%float 1%float  (* sparse depth masks *)
    3%float 3%float  (* sparse flows *)
    1%float 1%float  (* sparse flow masks *)
    1%float          (* boundaries *)
    1%float 1%float  (* rotations *)
    1%float 1%float  (* translations *)
    1%float.         (* intrinsics *)

Definition good_batch (set_to_none : bool) := pair_batch set_to_none 2%float 4%float.
Definition nan_batch (set_to_none : bool) :=
  pair_batch set_to_none PrimFloat.nan PrimFloat.nan.

(** The script's globals at the first batch: weight 1, no gradient yet,
    Adam untouched, rate 1e-3. *)
Definition fresh (set_to_none : bool) : @Globals (torch set_to_none) :=
  @Build_Globals (torch set_to_none) 0 0 None None None
    {| weight := 1%float; grad := None; exp_avg := 0%float;
       exp_avg_sq := 0%float; adam_step := 0; lr := 1.0e-3%float |}
    [] [].

End OneWeight.

(* ================================================================== *)
(** * Properties *)

(** ** The warm-up weight *)

(** C2.  The weight of the depth consistency loss is 0.1 in every epoch up
    to and including epoch 20, and the configured [--dcl_weight] in every
    later epoch; the option defaults to 5.0. *)
Theorem warm_up_weight (args : Args) (epoch : Z) :
  (epoch <= 20 -> depth_consistency_weight args epoch = 0.1%float) /\
  (20 < epoch -> depth_consistency_weight args epoch = dcl_weight args) /\
  (forall n_epochs, dcl_weight (default_args n_epochs) = 5.0%float).
Proof.
  unfold depth_consistency_weight.
  repeat split; intros.
  - assert (E : (epoch <=? 20) = true) by (apply Z.leb_le; assumption).
    rewrite E; reflexivity.
  - assert (E : (epoch <=? 20) = false) by (apply Z.leb_gt; assumption).
    rewrite E; reflexivity.
Qed.

Lemma warm_up_weight_witness :
  depth_consistency_weight (default_args 40) 20 = 0.1%float /\
  depth_consistency_weight (default_args 40) 21 = 5.0%float.
Proof.
  split.
  - apply (proj1 (warm_up_weight (default_args 40) 20)); lia.
  - rewrite (proj1 (proj2 (warm_up_weight (default_args 40) 21)));
      [reflexivity | lia].
Defined.

(** ** The cyclic schedule *)

Lemma CyclicLR_periodic (base_lr max_lr : Q) (step_size it : Z) :
  CyclicLR base_lr max_lr step_size (it + 2 * step_size) =
  CyclicLR base_lr max_lr step_size it.
Proof.
  unfold CyclicLR.
  replace (it + 2 * step_size) with (it + 1 * (2 * step_size)) by ring.
  rewrite Z_mod_plus_full; reflexivity.
Qed.

(** On the first half-cycle the rate climbs linearly from [base_lr]. *)
Lemma CyclicLR_rising (base_lr max_lr : Q) (step_size k : Z) :
  0 <= k <= step_size -> 0 < step_size ->
  CyclicLR base_lr max_lr step_size k =
  (base_lr + (max_lr - base_lr) * (inject_Z k / inject_Z step_size))%Q.
Proof.
  intros Hk Hs. unfold CyclicLR.
  rewrite Z.mod_small by lia.
  assert (E : (k <=? step_size) = true) by (apply Z.leb_le; lia).
  rewrite E; reflexivity.
Qed.

(** On the second half-cycle it descends linearly from [max_lr]. *)
Lemma CyclicLR_falling (base_lr max_lr : Q) (step_size k : Z) :
  0 < k < step_size ->
  CyclicLR base_lr max_lr step_size (step_size + k) =
  (max_lr - (max_lr - base_lr) * (inject_Z k / inject_Z step_size))%Q.
Proof.
  intros Hk. unfold CyclicLR.
  rewrite Z.mod_small by lia.
  assert (E : (step_size + k <=? step_size) = false) by (apply Z.leb_gt; lia).
  rewrite E.
  replace (step_size + k - step_size) with k by ring.
  reflexivity.
Qed.

(** ** The forward pass of a frame pair *)

Section ForwardFacts.

Context {T : Torch}.
Variables (pre : Tensor -> Tensor) (args : Args) (weight : float) (n : Net) (b : Batch).

Let F := forward_pair pre args weight n b.

(** C4.  Each of the two losses is its configurable weight times one half
    of the sum over the two directions of the pair: the sparse flow loss
    adds the loss of the flow synthesized with the pose 1->2 and the loss
    of the flow synthesized with the pose 2->1, the depth consistency loss
    adds the loss of view 1 (against the depth warped in from view 2) and
    the loss of view 2 (against the depth warped in from view 1).  The
    total is their sum. *)
Theorem losses_weighted_and_symmetric :
  v_sparse_flow_loss F =
    fmul (sfl_weight args * 0.5)%float
      (tadd (sparse_flow_loss_function
               (v_sparse_flows_1 F) (v_flows_from_depth_1 F) (v_sparse_flow_masks_1 F))
            (sparse_flow_loss_function
               (v_sparse_flows_2 F) (v_flows_from_depth_2 F) (v_sparse_flow_masks_2 F))) /\
  v_depth_consistency_loss F =
    fmul (weight * 0.5)%float
      (tadd (depth_consistency_loss_function
               (v_scaled_depth_maps_1 F) (v_warped_depth_maps_2_to_1 F)
               (v_intersect_masks_1 F) (intrinsics b))
            (depth_consistency_loss_function
               (v_scaled_depth_maps_2 F) (v_warped_depth_maps_1_to_2 F)
               (v_intersect_masks_2 F) (intrinsics b))) /\
  v_flows_from_depth_1 F =
    tmul (flow_from_depth_layer (v_scaled_depth_maps_1 F) (boundaries b)
            (translations_1_wrt_2 b) (rotations_1_wrt_2 b) (intrinsics b)) (boundaries b) /\
  v_flows_from_depth_2 F =
    tmul (flow_from_depth_layer (v_scaled_depth_maps_2 F) (boundaries b)
            (translations_2_wrt_1 b) (rotations_2_wrt_1 b) (intrinsics b)) (boundaries b) /\
  (v_warped_depth_maps_2_to_1 F, v_intersect_masks_1 F) =
    depth_warping_layer (v_scaled_depth_maps_1 F) (v_scaled_depth_maps_2 F) (boundaries b)
      (translations_1_wrt_2 b) (rotations_1_wrt_2 b) (intrinsics b) /\
  (v_warped_depth_maps_1_to_2 F, v_intersect_masks_2 F) =
    depth_warping_layer (v_scaled_depth_maps_2 F) (v_scaled_depth_maps_1 F) (boundaries b)
      (translations_2_wrt_1 b) (rotations_2_wrt_1 b) (intrinsics b) /\
  v_loss F = tadd (v_depth_consistency_loss F) (v_sparse_flow_loss F).
Proof.
  subst F; unfold forward_pair; cbn [v_sparse_flow_loss v_depth_consistency_loss
    v_flows_from_depth_1 v_flows_from_depth_2 v_sparse_flows_1 v_sparse_flows_2
    v_sparse_flow_masks_1 v_sparse_flow_masks_2 v_scaled_depth_maps_1
    v_scaled_depth_maps_2 v_warped_depth_maps_2_to_1 v_warped_depth_maps_1_to_2
    v_intersect_masks_1 v_intersect_masks_2 v_loss].
  repeat split; symmetry; apply surjective_pairing.
Qed.

(** C5.  Whatever enters the sparse flow loss has been multiplied by the
    boundary mask first: the sparse flows, the flows synthesized from the
    depth and the sparse flow masks that the loss function receives, for
    both directions, are products with [boundaries]; so are the colours
    the network sees. *)
Theorem boundary_mask_applied_before_loss :
  masked_by (boundaries b) (v_sparse_flow_masks_1 F) /\
  masked_by (boundaries b) (v_sparse_flow_masks_2 F) /\
  masked_by (boundaries b) (v_sparse_flows_1 F) /\
  masked_by (boundaries b) (v_sparse_flows_2 F) /\
  masked_by (boundaries b) (v_flows_from_depth_1 F) /\
  masked_by (boundaries b) (v_flows_from_depth_2 F) /\
  masked_by (boundaries b) (v_colors_1 F) /\
  masked_by (boundaries b) (v_colors_2 F) /\
  v_sparse_flow_masks_1 F = tmul (sparse_flow_masks_1 b) (boundaries b) /\
  v_sparse_flow_masks_2 F = tmul (sparse_flow_masks_2 b) (boundaries b) /\
  v_sparse_flows_1 F = tmul (sparse_flows_1 b) (boundaries b) /\
  v_sparse_flows_2 F = tmul (sparse_flows_2 b) (boundaries b) /\
  v_predicted_depth_maps_1 F = depth_estimation_model n (tmul (boundaries b) (colors_1 b)) /\
  v_predicted_depth_maps_2 F = depth_estimation_model n (tmul (boundaries b) (colors_2 b)) /\
  v_sparse_flow_loss F =
    fmul (sfl_weight args * 0.5)%float
      (tadd (sparse_flow_loss_function
               (v_sparse_flows_1 F) (v_flows_from_depth_1 F) (v_sparse_flow_masks_1 F))
            (sparse_flow_loss_function
               (v_sparse_flows_2 F) (v_flows_from_depth_2 F) (v_sparse_flow_masks_2 F))).
Proof.
  subst F; unfold forward_pair, masked_by; cbn.
  repeat split; eexists; (left; reflexivity) || (right; reflexivity).
Qed.

(** X11.  With a commutative tensor sum, neither loss tells which view
    is called 1 and which 2: exchanging the two frames of a pair, with
    their sparse data and their relative poses, leaves the sparse flow loss
    and the depth consistency loss unchanged. *)
Lemma losses_invariant_under_view_swap :
  (forall x y : Tensor, tadd x y = tadd y x) ->
  v_sparse_flow_loss (forward_pair pre args weight n (swap_views b))
    = v_sparse_flow_loss F /\
  v_depth_consistency_loss (forward_pair pre args weight n (swap_views b))
    = v_depth_consistency_loss F.
Proof.
  intros C. subst F; unfold forward_pair, swap_views; cbn.
  split; f_equal; apply C.
Qed.

End ForwardFacts.

(** C6.  In the validation loop the depth scaling layer receives
    [torch.abs] of the network output, in the training loop the network
    output itself; in both the network sees the boundary-masked colours. *)
Theorem abs_before_scaling_in_validation_only
    {T : Torch} (args : Args) (weight : float) (n : Net) (b : Batch) :
  let V := validation_forward args weight n b in
  let R := train_forward args weight n b in
  v_predicted_depth_maps_1 V = depth_estimation_model n (tmul (boundaries b) (colors_1 b)) /\
  v_predicted_depth_maps_2 V = depth_estimation_model n (tmul (boundaries b) (colors_2 b)) /\
  v_predicted_depth_maps_1 R = v_predicted_depth_maps_1 V /\
  v_predicted_depth_maps_2 R = v_predicted_depth_maps_2 V /\
  v_scaled_depth_maps_1 V =
    fst (depth_scaling_layer (torch_abs (v_predicted_depth_maps_1 V))
           (sparse_depths_1 b) (sparse_depth_masks_1 b)) /\
  v_scaled_depth_maps_2 V =
    fst (depth_scaling_layer (torch_abs (v_predicted_depth_maps_2 V))
           (sparse_depths_2 b) (sparse_depth_masks_2 b)) /\
  v_scaled_depth_maps_1 R =
    fst (depth_scaling_layer (v_predicted_depth_maps_1 R)
           (sparse_depths_1 b) (sparse_depth_masks_1 b)) /\
  v_scaled_depth_maps_2 R =
    fst (depth_scaling_layer (v_predicted_depth_maps_2 R)
           (sparse_depths_2 b) (sparse_depth_masks_2 b)).
Proof.
  cbv zeta; unfold validation_forward, train_forward, forward_pair; cbn.
  repeat split.
Qed.

(** The two loops really differ: when the network answers a negative
    depth, the training loop scales -2 and the validation loop scales 2. *)
Example scaling_input_differs :
  v_scaled_depth_maps_1
    (train_forward (default_args 1) 0.1%float (0 : @Net Toy.torch) Toy.negative_batch)
    = (-2)%float /\
  v_scaled_depth_maps_1
    (validation_forward (default_args 1) 0.1%float (0 : @Net Toy.torch) Toy.negative_batch)
    = 2%float.
Proof. split; reflexivity. Qed.

(** ** One training batch *)

Section TrainBatchFacts.

Context {T : Torch}.
Variables (args : Args) (epoch batch : Z) (b : Batch) (g : Globals).

(** The non-finite branch never raises; this is the state it leaves. *)
Lemma train_batch_non_finite :
  non_finite (item (batch_loss args epoch b g)) = true ->
  train_batch args epoch batch b g =
  Ok {| step := step g;
        flag := flag g;
        mean_loss := mean_loss g;
        mean_depth_consistency_loss := mean_depth_consistency_loss g;
        mean_sparse_flow_loss := mean_sparse_flow_loss g;
        net := optimizer_step
                 (zero_grad
                    (backward (batch_loss args epoch b g)
                       (zero_grad (batch_step (step g) (net g)))));
        files := files g;
        trace := trace g ++ [EvBatchStep (step g); EvZeroGrad; EvBackward; EvZeroGrad;
                             EvOptimizerStep] |}.
Proof.
  unfold batch_loss, train_batch; intros H; rewrite H; reflexivity.
Qed.

(** The finite branch, when it completes, leaves a state of this shape. *)
Lemma train_batch_finite (g' : Globals) :
  non_finite (item (batch_loss args epoch b g)) = false ->
  train_batch args epoch batch b g = Ok g' ->
  exists m d s,
    g' = {| step := step g + 1;
            flag := flag g + 1;
            mean_loss := Some m;
            mean_depth_consistency_loss := Some d;
            mean_sparse_flow_loss := Some s;
            net := optimizer_step
                     (clip_grad_norm_ 10.0%float
                        (backward (batch_loss args epoch b g)
                           (zero_grad (batch_step (step g) (net g)))));
            files := files g;
            trace := trace g ++ [EvBatchStep (step g); EvZeroGrad; EvBackward;
                                 EvClipGradNorm 10.0%float; EvOptimizerStep;
                                 EvTrainingScalars m d s (step g + 1)] |}.
Proof.
  unfold batch_loss, train_batch; intros H; rewrite H.
  destruct ((batch =? 0) || (flag g + 1 =? 1)); cbn [bind].
  - unfold py_mod; destruct (display_interval args =? 0); cbn [bind];
      intros E; [discriminate | injection E as <-].
    do 3 eexists; reflexivity.
  - destruct (mean_loss g); cbn [read_name bind]; [| discriminate].
    destruct (mean_depth_consistency_loss g); cbn [read_name bind]; [| discriminate].
    destruct (mean_sparse_flow_loss g); cbn [read_name bind]; [| discriminate].
    unfold py_mod; destruct (display_interval args =? 0); cbn [bind];
      intros E; [discriminate | injection E as <-].
    do 3 eexists; reflexivity.
Qed.

(** Whatever the loss, a completed batch starts by stepping the scheduler
    with the current [step], never steps it again, and calls
    [optimizer.step()] exactly once. *)
Lemma train_batch_steps_schedule_once (g' : Globals) :
  train_batch args epoch batch b g = Ok g' ->
  exists rest,
    trace g' = trace g ++ EvBatchStep (step g) :: rest /\
    existsb is_batch_step rest = false /\
    List.length (filter is_optimizer_step rest) = 1%nat.
Proof.
  destruct (non_finite (item (batch_loss args epoch b g))) eqn:H; intros E.
  - rewrite (train_batch_non_finite H) in E; injection E as <-.
    eexists; cbn [trace]; repeat split.
  - destruct (train_batch_finite _ H E) as (m & d & s & ->).
    eexists; cbn [trace]; repeat split.
Qed.

End TrainBatchFacts.

(** C3.  The schedule is a function of the iteration count alone, a
    triangular wave of period two half-cycles: with rates 1e-4 and 1e-3 and
    a half-cycle of 1000 iterations it is exactly 1e-4 at iteration 0,
    exactly 1e-3 at iteration 1000 and exactly 1e-4 again at iteration
    2000.  The training loop steps it once per batch, before anything else,
    with its cumulative counter [step]. *)
Theorem cyclic_schedule_exact :
  (default_schedule 0 == 1 # 10000)%Q /\
  (default_schedule 1000 == 1 # 1000)%Q /\
  (default_schedule 2000 == 1 # 10000)%Q /\
  (forall it, default_schedule (it + 2000) = default_schedule it) /\
  (forall (T : Torch) args epoch batch b g,
      match train_batch args epoch batch b g with
      | Ok g' =>
          exists rest,
            trace g' = trace g ++ EvBatchStep (step g) :: rest /\
            existsb is_batch_step rest = false /\
            List.length (filter is_optimizer_step rest) = 1%nat
      | Raise _ => True
      end).
Proof.
  repeat split.
  - intros it. unfold default_schedule.
    exact (CyclicLR_periodic (1 # 10000) (1 # 1000) 1000 it).
  - intros T args epoch batch b g.
    destruct (train_batch args epoch batch b g) as [g' |] eqn:E; [| exact I].
    exact (train_batch_steps_schedule_once _ _ _ _ _ _ E).
Qed.

(** ** The non-finite branch *)

(** C1, as stated, fails: after seven finite batches a batch with a NaN
    loss is recovered from, but the counter stays at 7 instead of moving
    to 8. *)
Lemma non_finite_batch_does_not_advance_step :
  non_finite (item (batch_loss (T := Toy.torch) (default_args 1) 0 Toy.nan_batch Toy.warm))
    = true /\
  exists g',
    train_batch (default_args 1) 0 3 Toy.nan_batch Toy.warm = Ok g' /\
    step g' = 7 /\ step g' <> step Toy.warm + 1.
Proof.
  split; [reflexivity |].
  eexists; split; [reflexivity |].
  split; [reflexivity | discriminate].
Qed.

(** C1, amended.  A batch whose total loss is NaN or infinite never
    raises: the gradients are zeroed right before [optimizer.step()], so
    nothing of that batch's gradient is applied, and the loop moves on with
    [step], [flag], the running means and the checkpoint files untouched.
    [step] is advanced by the batches with a finite loss only. *)
Theorem non_finite_batch_keeps_step
    {T : Torch} (args : Args) (epoch batch : Z) (b : Batch) (g : Globals) :
  (non_finite (item (batch_loss args epoch b g)) = true ->
   exists g',
     train_batch args epoch batch b g = Ok g' /\
     (exists n, net g' = optimizer_step (zero_grad n)) /\
     step g' = step g /\
     flag g' = flag g /\
     mean_loss g' = mean_loss g /\
     mean_depth_consistency_loss g' = mean_depth_consistency_loss g /\
     mean_sparse_flow_loss g' = mean_sparse_flow_loss g /\
     files g' = files g) /\
  (non_finite (item (batch_loss args epoch b g)) = false ->
   forall g', train_batch args epoch batch b g = Ok g' -> step g' = step g + 1).
Proof.
  split.
  - intros H. eexists; split; [exact (train_batch_non_finite _ _ batch _ _ H) |].
    cbn; repeat split. eexists; reflexivity.
  - intros H g' E.
    destruct (train_batch_finite _ _ _ _ _ _ H E) as (m & d & s & ->); reflexivity.
Qed.

Lemma non_finite_batch_keeps_step_witness :
  (exists g',
     train_batch (default_args 1) 0 3 Toy.nan_batch Toy.warm = Ok g' /\ step g' = 7) /\
  (forall g',
     train_batch (default_args 1) 0 3 Toy.good_batch Toy.warm = Ok g' -> step g' = 8).
Proof.
  split.
  - destruct (proj1 (non_finite_batch_keeps_step (default_args 1) 0 3 Toy.nan_batch Toy.warm)
                eq_refl) as (g' & E & _ & S & _).
    exists g'; split; [exact E | exact S].
  - intros g' E.
    exact (proj2 (non_finite_batch_keeps_step (default_args 1) 0 3 Toy.good_batch Toy.warm)
             eq_refl g' E).
Defined.

(** C9, as stated, fails: that the branch is never a no-op on optimizer
    and model state is not so.  With Adam and [zero_grad()] dropping the
    gradients, a run that trains one finite batch and then meets a NaN
    batch makes the four calls on the NaN batch and comes out with the
    weight, both moments, Adam's step count and the rate exactly as they
    were: [step()] finds no gradient and skips the parameter. *)
Lemma non_finite_branch_is_a_no_op_for_adam :
  exists g1 g2,
    train_batch (T := OneWeight.torch true) (default_args 1) 0 0
      (OneWeight.good_batch true) (OneWeight.fresh true) = Ok g1 /\
    non_finite (item (batch_loss (default_args 1) 0 (OneWeight.nan_batch true) g1)) = true /\
    train_batch (default_args 1) 0 1 (OneWeight.nan_batch true) g1 = Ok g2 /\
    trace g2 = trace g1 ++ [EvBatchStep 1; EvZeroGrad; EvBackward; EvZeroGrad;
                            EvOptimizerStep] /\
    OneWeight.weights_and_optimizer (net g2) = OneWeight.weights_and_optimizer (net g1) /\
    state_dict (net g2) = state_dict (net g1).
Proof.
  do 2 eexists.
  split; [vm_compute; reflexivity |].
  split; [vm_compute; reflexivity |].
  split; [vm_compute; reflexivity |].
  repeat split.
Qed.

(** C9, amended.  On a non-finite loss the loop calls, in this order,
    [optimizer.zero_grad()], [loss.backward()], [optimizer.zero_grad()] and
    [optimizer.step()]: the optimizer is stepped on every skipped batch, on
    gradients that have just been zeroed, and the torch state the branch
    leaves is the outcome of that step.  What the step does to weights and
    optimizer state is the optimizer's business: when it skips parameters
    whose gradient has been zeroed, and zeroing discards whatever
    [backward] accumulated, the whole branch amounts to one [zero_grad()]
    on the state it found. *)
Theorem non_finite_branch_steps_on_zeroed_gradients
    {T : Torch} (args : Args) (epoch batch : Z) (b : Batch) (g : Globals) :
  non_finite (item (batch_loss args epoch b g)) = true ->
  exists g',
    train_batch args epoch batch b g = Ok g' /\
    trace g' = trace g ++ [EvBatchStep (step g); EvZeroGrad; EvBackward; EvZeroGrad;
                           EvOptimizerStep] /\
    net g' = optimizer_step
               (zero_grad
                  (backward (batch_loss args epoch b g)
                     (zero_grad (batch_step (step g) (net g))))) /\
    ((forall n, optimizer_step (zero_grad n) = zero_grad n) ->
     (forall l n, zero_grad (backward l n) = zero_grad n) ->
     (forall n, zero_grad (zero_grad n) = zero_grad n) ->
     net g' = zero_grad (batch_step (step g) (net g))).
Proof.
  intros H. eexists; split; [exact (train_batch_non_finite _ _ batch _ _ H) |].
  split; [reflexivity |]. split; [reflexivity |].
  intros Skip Discard Idem. cbn [net].
  rewrite Skip, Discard, Idem. reflexivity.
Qed.

Lemma non_finite_branch_steps_on_zeroed_gradients_witness :
  exists g',
    train_batch (T := OneWeight.torch true) (default_args 1) 0 0
      (OneWeight.nan_batch true) (OneWeight.fresh true) = Ok g' /\
    trace g' = [EvBatchStep 0; EvZeroGrad; EvBackward; EvZeroGrad; EvOptimizerStep] /\
    net g' = net (OneWeight.fresh true).
Proof.
  destruct (non_finite_branch_steps_on_zeroed_gradients (T := OneWeight.torch true)
              (default_args 1) 0 0 (OneWeight.nan_batch true) (OneWeight.fresh true)
              eq_refl) as (g' & E & Tr & _ & NoOp).
  exists g'; split; [exact E |]. split; [exact Tr |].
  apply NoOp.
  - intros n; reflexivity.
  - intros l n; destruct n as [w [gr |] m v t r]; reflexivity.
  - intros n; reflexivity.
Defined.

(** With an optimizer that counts its steps the branch is visibly not a
    no-op: the count moves from 7 to 8. *)
Example non_finite_branch_changes_optimizer_state :
  exists g',
    train_batch (default_args 1) 0 3 Toy.nan_batch Toy.warm = Ok g' /\
    net Toy.warm = 7 /\ net g' = 8.
Proof. eexists; repeat split. Qed.

(** Nor is it one with Adam when [zero_grad()] fills the gradients with
    zeros instead of dropping them: after one finite batch, the NaN batch
    moves Adam's step count from 1 to 2, decays the first moment and so
    moves the weight. *)
Example non_finite_branch_moves_adam_on_zero_filled_gradients :
  exists g1 g2,
    train_batch (T := OneWeight.torch false) (default_args 1) 0 0
      (OneWeight.good_batch false) (OneWeight.fresh false) = Ok g1 /\
    train_batch (default_args 1) 0 1 (OneWeight.nan_batch false) g1 = Ok g2 /\
    OneWeight.adam_step (net g1) = 1 /\ OneWeight.adam_step (net g2) = 2 /\
    PrimFloat.ltb (OneWeight.weight (net g2)) (OneWeight.weight (net g1)) = true.
Proof.
  do 2 eexists.
  split; [vm_compute; reflexivity |].
  split; [vm_compute; reflexivity |].
  repeat split.
Qed.

(** ** The finite branch *)

(** A finite batch completes as soon as the display interval is not zero
    and the running means it may read are assigned. *)
Lemma train_batch_finite_completes
    {T : Torch} (args : Args) (epoch batch : Z) (b : Batch) (g : Globals) :
  non_finite (item (batch_loss args epoch b g)) = false ->
  display_interval args <> 0 ->
  means_ready g ->
  exists g', train_batch args epoch batch b g = Ok g'.
Proof.
  intros H D R. unfold batch_loss in H. unfold train_batch; rewrite H.
  assert (P : py_mod batch (display_interval args)
              = Ok (batch mod display_interval args)).
  { unfold py_mod. destruct (Z.eqb_spec (display_interval args) 0); [contradiction | reflexivity]. }
  destruct R as [R | (M & D' & S)].
  - rewrite R; cbn [Z.add Z.eqb Pos.eqb]. rewrite orb_true_r; cbn [bind].
    rewrite P; cbn [bind]. eexists; reflexivity.
  - destruct (mean_loss g); [| contradiction].
    destruct (mean_depth_consistency_loss g); [| contradiction].
    destruct (mean_sparse_flow_loss g); [| contradiction].
    destruct ((batch =? 0) || (flag g + 1 =? 1)); cbn [bind read_name];
      rewrite P; cbn [bind]; eexists; reflexivity.
Qed.

(** C10.  On a finite loss the update handed to the optimizer is the
    gradient of the batch clipped to a global norm of 10.0:
    [clip_grad_norm_(parameters, 10.0)] is the call right before
    [optimizer.step()], and the only step of the batch is that one.  The
    batch completes whenever the display interval is not zero and the
    running means are ready. *)
Theorem finite_batch_clips_before_step
    {T : Torch} (args : Args) (epoch batch : Z) (b : Batch) (g : Globals) :
  non_finite (item (batch_loss args epoch b g)) = false ->
  (forall g',
     train_batch args epoch batch b g = Ok g' ->
     net g' = optimizer_step
                (clip_grad_norm_ 10.0%float
                   (backward (batch_loss args epoch b g)
                      (zero_grad (batch_step (step g) (net g))))) /\
     exists m d s,
       trace g' = trace g ++ [EvBatchStep (step g); EvZeroGrad; EvBackward;
                              EvClipGradNorm 10.0%float; EvOptimizerStep;
                              EvTrainingScalars m d s (step g + 1)]) /\
  (display_interval args <> 0 -> means_ready g ->
   exists g', train_batch args epoch batch b g = Ok g').
Proof.
  intros H; split.
  - intros g' E.
    destruct (train_batch_finite _ _ _ _ _ _ H E) as (m & d & s & ->).
    split; [reflexivity | do 3 eexists; reflexivity].
  - intros D R. exact (train_batch_finite_completes _ _ batch _ _ H D R).
Qed.

Lemma finite_batch_clips_before_step_witness :
  exists g',
    train_batch (default_args 1) 0 3 Toy.good_batch Toy.warm = Ok g' /\
    net g' = 8 /\
    exists m d s,
      trace g' = [EvBatchStep 7; EvZeroGrad; EvBackward; EvClipGradNorm 10.0%float;
                  EvOptimizerStep; EvTrainingScalars m d s 8].
Proof.
  pose proof (finite_batch_clips_before_step (default_args 1) 0 3 Toy.good_batch Toy.warm
                eq_refl) as [Shape Completes].
  destruct Completes as (g' & E).
  - discriminate.
  - right; repeat split; discriminate.
  - exists g'; split; [exact E |]. exact (Shape g' E).
Defined.

(** ** Whole runs: which calls precede [optimizer.step()] *)

Lemma steps_licensed_app (a b : list event) :
  forall prev,
    steps_licensed prev a -> (forall q, steps_licensed q b) -> steps_licensed prev (a ++ b).
Proof.
  induction a as [| e a IH]; intros prev Ha Hb; cbn.
  - apply Hb.
  - destruct Ha as [He Ha]. split; [exact He | apply IH; assumption].
Qed.

Section RunFacts.

Context {T : Torch}.
Variable args : Args.

Lemma comes_after_refl (g : Globals) : comes_after g g.
Proof. exists []; split; [symmetry; apply app_nil_r | intros; exact I]. Qed.

Lemma comes_after_trans (g1 g2 g3 : Globals) :
  comes_after g1 g2 -> comes_after g2 g3 -> comes_after g1 g3.
Proof.
  intros (a & Ea & La) (c & Ec & Lc).
  exists (a ++ c); split.
  - rewrite Ec, Ea; symmetry; apply app_assoc.
  - intros prev; apply steps_licensed_app; [apply La | exact Lc].
Qed.

Ltac licensed_events :=
  intros prev; cbn; unfold licenses;
  repeat split; intros; try discriminate; auto.

Lemma train_batch_comes_after (epoch batch : Z) (b : Batch) (g g' : Globals) :
  train_batch args epoch batch b g = Ok g' -> comes_after g g'.
Proof.
  destruct (non_finite (item (batch_loss args epoch b g))) eqn:H; intros E.
  - rewrite (train_batch_non_finite _ _ batch _ _ H) in E; injection E as <-.
    eexists; split; [reflexivity | licensed_events].
  - destruct (train_batch_finite _ _ _ _ _ _ H E) as (m & d & s & ->).
    eexists; split; [reflexivity | licensed_events].
Qed.

Lemma validation_batch_inv (epoch batch : Z) (b : Batch) (g g' : Globals) :
  validation_batch args epoch batch b g = Ok g' ->
  step g' = step g /\ flag g' = flag g /\ net g' = net g /\ files g' = files g /\
  means_bound g' /\
  exists m d s, trace g' = trace g ++ [EvValidationScalars m d s epoch].
Proof.
  unfold validation_batch.
  set (f := validation_forward _ _ _ _).
  destruct (negb (PrimFloat.is_nan (item (v_loss f)))).
  - destruct (batch =? 0); cbn [bind].
    + unfold py_mod; destruct (display_interval args =? 0); cbn [bind read_name];
        intros E; [discriminate | injection E as <-].
      cbn; unfold means_bound; cbn.
      repeat split; try discriminate. do 3 eexists; reflexivity.
    + destruct (mean_loss g); cbn [read_name bind]; [| discriminate].
      destruct (mean_depth_consistency_loss g); cbn [read_name bind]; [| discriminate].
      destruct (mean_sparse_flow_loss g); cbn [read_name bind]; [| discriminate].
      unfold py_mod; destruct (display_interval args =? 0); cbn [bind read_name];
        intros E; [discriminate | injection E as <-].
      cbn; unfold means_bound; cbn.
      repeat split; try discriminate. do 3 eexists; reflexivity.
  - cbn [bind].
    unfold py_mod; destruct (display_interval args =? 0); cbn [bind]; [discriminate |].
    destruct (mean_loss g) eqn:M; cbn [read_name bind]; [| discriminate].
    destruct (mean_depth_consistency_loss g) eqn:D; cbn [read_name bind]; [| discriminate].
    destruct (mean_sparse_flow_loss g) eqn:S; cbn [read_name bind]; [| discriminate].
    intros E; injection E as <-.
    cbn; unfold means_bound; cbn.
    repeat split; try discriminate. do 3 eexists; reflexivity.
Qed.

Lemma validation_batch_comes_after (epoch batch : Z) (b : Batch) (g g' : Globals) :
  validation_batch args epoch batch b g = Ok g' -> comes_after g g'.
Proof.
  intros E. destruct (validation_batch_inv _ _ _ _ _ E) as (_ & _ & _ & _ & _ & m & d & s & Tr).
  eexists; split; [exact Tr | licensed_events].
Qed.

Lemma save_checkpoint_inv (epoch : Z) (g g' : Globals) :
  save_checkpoint epoch g = Ok g' ->
  exists s,
    mean_sparse_flow_loss g = Some s /\
    step g' = step g /\ flag g' = flag g /\ net g' = net g /\
    files g' = torch_save (model_path_epoch epoch s)
                 {| ck_model := state_dict (net g);
                    ck_epoch := epoch + 1;
                    ck_step := step g;
                    ck_validation := s |} (files g) /\
    trace g' = trace g ++ [EvSaveModel (epoch + 1) (step g) (model_path_epoch epoch s)].
Proof.
  unfold save_checkpoint.
  destruct (mean_sparse_flow_loss g) as [s |]; cbn [read_name bind]; [| discriminate].
  intros E; injection E as <-. exists s; cbn; repeat split.
Qed.

Lemma save_checkpoint_comes_after (epoch : Z) (g g' : Globals) :
  save_checkpoint epoch g = Ok g' -> comes_after g g'.
Proof.
  intros E. destruct (save_checkpoint_inv _ _ _ E) as (s & _ & _ & _ & _ & _ & Tr).
  eexists; split; [exact Tr | licensed_events].
Qed.

Lemma train_loop_comes_after (epoch : Z) (bs : list Batch) :
  forall batch g g', train_loop args epoch batch bs g = Ok g' -> comes_after g g'.
Proof.
  induction bs as [| b bs IH]; cbn [train_loop]; intros batch g g' E.
  - injection E as <-; apply comes_after_refl.
  - destruct (train_batch args epoch batch b g) as [g1 |] eqn:E1; cbn [bind] in E;
      [| discriminate].
    eapply comes_after_trans; [exact (train_batch_comes_after _ _ _ _ _ E1) |].
    exact (IH _ _ _ E).
Qed.

Lemma validation_loop_comes_after (epoch : Z) (bs : list Batch) :
  forall batch g g', validation_loop args epoch batch bs g = Ok g' -> comes_after g g'.
Proof.
  induction bs as [| b bs IH]; cbn [validation_loop]; intros batch g g' E.
  - injection E as <-; apply comes_after_refl.
  - destruct (validation_batch args epoch batch b g) as [g1 |] eqn:E1; cbn [bind] in E;
      [| discriminate].
    eapply comes_after_trans; [exact (validation_batch_comes_after _ _ _ _ _ E1) |].
    exact (IH _ _ _ E).
Qed.

Variables (train_loader : Z -> list Batch) (validation_loader : list Batch).

Lemma run_epoch_comes_after (epoch : Z) (g g' : Globals) :
  run_epoch args train_loader validation_loader epoch g = Ok g' -> comes_after g g'.
Proof.
  unfold run_epoch.
  destruct (train_loop args epoch 0 (train_loader epoch) g) as [g1 |] eqn:E1;
    cbn [bind]; [| discriminate].
  pose proof (train_loop_comes_after _ _ _ _ _ E1) as A1.
  destruct (py_mod epoch (validation_interval args)) as [r |]; cbn [bind]; [| discriminate].
  destruct (negb (r =? 0)).
  - intros E; injection E as <-; exact A1.
  - destruct (validation_loop args epoch 0 validation_loader g1) as [g2 |] eqn:E2;
      cbn [bind]; [| discriminate].
    intros E3.
    eapply comes_after_trans; [exact A1 |].
    eapply comes_after_trans; [exact (validation_loop_comes_after _ _ _ _ _ E2) |].
    exact (save_checkpoint_comes_after _ _ _ E3).
Qed.

Lemma epoch_loop_comes_after (epochs : list Z) :
  forall g g',
    epoch_loop args train_loader validation_loader epochs g = Ok g' -> comes_after g g'.
Proof.
  induction epochs as [| epoch rest IH]; cbn [epoch_loop]; intros g g' E.
  - injection E as <-; apply comes_after_refl.
  - destruct (run_epoch args train_loader validation_loader epoch g) as [g1 |] eqn:E1;
      cbn [bind] in E; [| discriminate].
    eapply comes_after_trans; [exact (run_epoch_comes_after _ _ _ E1) |].
    exact (IH _ _ E).
Qed.

(** X1.  In a completed training run every [optimizer.step()] comes right
    after [clip_grad_norm_(.., 10.0)] (a finite batch) or right after
    [optimizer.zero_grad()] (a non-finite batch). *)
Lemma every_optimizer_step_licensed (fs : Files) (net0 : Net) (g : Globals) :
  train_main args fs net0 train_loader validation_loader = Ok g ->
  steps_licensed None (trace g).
Proof.
  unfold train_main.
  destruct (restore args fs net0) as [[[epoch step0] net1] |]; cbn [bind]; [| discriminate].
  intros E. destruct (epoch_loop_comes_after _ _ _ E) as (evs & Tr & L).
  rewrite Tr; cbn [trace app]. apply L.
Qed.

End RunFacts.

(** ** Non-finite losses and the training loop *)

Section Containment.

Context {T : Torch}.
Variable args : Args.
Hypothesis display_each_not_zero : display_interval args <> 0.

(** One batch, whatever its loss, completes and keeps the means ready. *)
Lemma train_batch_completes (epoch batch : Z) (b : Batch) (g : Globals) :
  means_ready g ->
  exists g', train_batch args epoch batch b g = Ok g' /\ means_ready g'.
Proof.
  intros R.
  destruct (non_finite (item (batch_loss args epoch b g))) eqn:H.
  - eexists; split; [exact (train_batch_non_finite _ _ batch _ _ H) |].
    exact R.
  - destruct (train_batch_finite_completes _ _ batch _ _ H display_each_not_zero R)
      as (g' & E).
    exists g'; split; [exact E |].
    destruct (train_batch_finite _ _ _ _ _ _ H E) as (m & d & s & ->).
    right; unfold means_bound; cbn; repeat split; discriminate.
Qed.

(** The batch loop of an epoch runs to its end on any sequence of batches:
    no loss value, finite or not, makes it raise. *)
Lemma train_loop_completes (epoch : Z) (bs : list Batch) :
  forall batch g,
    means_ready g ->
    exists g', train_loop args epoch batch bs g = Ok g' /\ means_ready g'.
Proof.
  induction bs as [| b bs IH]; cbn [train_loop]; intros batch g R.
  - exists g; split; [reflexivity | exact R].
  - destruct (train_batch_completes epoch batch b g R) as (g1 & E1 & R1).
    rewrite E1; cbn [bind]. apply IH; exact R1.
Qed.

End Containment.

(** ** Checkpoints *)

Lemma torch_load_after_save {T : Torch} (p : string) (c : Checkpoint) (fs : Files) :
  torch_load (torch_save p c fs) p = Some c.
Proof. cbn. rewrite String.eqb_refl; reflexivity. Qed.

Lemma range_cons (a b : Z) : a < b -> range a b = a :: range (a + 1) b.
Proof.
  intros H. unfold range.
  replace (Z.to_nat (b - a)) with (S (Z.to_nat (b - (a + 1)))) by lia.
  cbn [seq map]. f_equal; [lia |].
  rewrite <- seq_shift, map_map.
  apply map_ext; intros k; lia.
Qed.

(** In training, [--load_trained_model] with a path that is not there
    raises [OSError] before the first epoch. *)
Lemma train_main_missing_checkpoint
    {T : Torch} (args : Args) (fs : Files) (net0 : Net) (p : string)
    (train_loader : Z -> list Batch) (validation_loader : list Batch) :
  load_trained_model args = true ->
  trained_model_path args = Some p ->
  torch_load fs p = None ->
  train_main args fs net0 train_loader validation_loader = Raise OSError.
Proof.
  intros L P M. unfold train_main, restore. rewrite L, P, M. reflexivity.
Qed.

(** In evaluation a path that is not there always raises [OSError]. *)
Lemma evaluate_main_missing_checkpoint
    {T : Torch} (fs : Files) (p : string) (net0 : Net) (test_loader : list (Tensor * Tensor)) :
  torch_load fs p = None ->
  evaluate_main fs p net0 test_loader = Raise OSError.
Proof.
  intros M. unfold evaluate_main. rewrite M. reflexivity.
Qed.

(** Without [--load_trained_model] the path is never looked at. *)
Lemma train_main_fresh_start
    {T : Torch} (args : Args) (fs : Files) (net0 : Net) :
  load_trained_model args = false ->
  restore args fs net0 = Ok (0, 0, net0).
Proof.
  intros L. unfold restore. rewrite L. reflexivity.
Qed.

(** C7.  The checkpoint written at the end of [epoch] holds [epoch + 1]
    and the current [step]; a run started with [--load_trained_model] on
    that file restores both, so its epoch loop begins at [epoch + 1], the
    epoch the interrupted run would have entered next, and its first batch
    steps the schedule with the saved [step]. *)
Theorem checkpoint_resumes_epoch_and_step
    {T : Torch} (args : Args) (epoch : Z) (g g' : Globals) (net0 : Net) (p : string)
    (train_loader : Z -> list Batch) (validation_loader : list Batch) :
  save_checkpoint epoch g = Ok g' ->
  load_trained_model args = true ->
  trained_model_path args = Some p ->
  (forall s, mean_sparse_flow_loss g = Some s -> p = model_path_epoch epoch s) ->
  (exists ck,
     torch_load (files g') p = Some ck /\
     ck_epoch ck = epoch + 1 /\ ck_step ck = step g /\ ck_model ck = state_dict (net g)) /\
  restore args (files g') net0
    = Ok (epoch + 1, step g, load_state_dict (state_dict (net g)) net0) /\
  train_main args (files g') net0 train_loader validation_loader
    = epoch_loop args train_loader validation_loader
        (range (epoch + 1) (number_epoch args + 1))
        {| step := step g;
           flag := 0;
           mean_loss := None;
           mean_depth_consistency_loss := None;
           mean_sparse_flow_loss := None;
           net := load_state_dict (state_dict (net g)) net0;
           files := files g';
           trace := [] |} /\
  (epoch + 1 <= number_epoch args ->
   range (epoch + 1) (number_epoch args + 1)
     = (epoch + 1) :: range (epoch + 2) (number_epoch args + 1)).
Proof.
  intros Sv L P Path.
  destruct (save_checkpoint_inv _ _ _ Sv) as (s & Ms & _ & _ & _ & Fs & _).
  rewrite (Path s Ms) in *.
  assert (Ld : torch_load (files g') (model_path_epoch epoch s)
               = Some {| ck_model := state_dict (net g);
                         ck_epoch := epoch + 1;
                         ck_step := step g;
                         ck_validation := s |}).
  { rewrite Fs. apply torch_load_after_save. }
  assert (Rs : restore args (files g') net0
               = Ok (epoch + 1, step g, load_state_dict (state_dict (net g)) net0)).
  { unfold restore. rewrite L, P, Ld. reflexivity. }
  repeat split.
  - eexists; split; [exact Ld |]. repeat split.
  - exact Rs.
  - unfold train_main. rewrite Rs. reflexivity.
  - intros H. rewrite (range_cons (epoch + 1) (number_epoch args + 1)) by lia.
    do 2 f_equal. lia.
Qed.

Lemma checkpoint_resumes_epoch_and_step_witness :
  exists g',
    save_checkpoint (T := Toy.torch) 3 Toy.warm = Ok g' /\
    restore (Toy.resume_args 9 "checkpoint.pt") (files g') 0 = Ok (4, 7, 7).
Proof.
  destruct (save_checkpoint (T := Toy.torch) 3 Toy.warm) as [g' |] eqn:Sv;
    [| discriminate Sv].
  exists g'; split; [reflexivity |].
  exact (proj1 (proj2 (checkpoint_resumes_epoch_and_step
                         (Toy.resume_args 9 "checkpoint.pt") 3 Toy.warm g' 0
                         "checkpoint.pt" (fun _ => []) [] Sv eq_refl eq_refl
                         (fun _ _ => eq_refl)))).
Defined.

(** ** A run that a NaN brings down *)

(** C8.  With the default command line, no checkpoint to load, an epoch 0
    whose only training batch has a NaN loss and a validation loader whose
    first batch has a NaN loss too: the training batch is recovered from,
    but then the validation loop reads [mean_loss], which no branch has
    assigned, and the run ends in [NameError]. *)
Theorem nan_in_first_epoch_aborts_run :
  non_finite (item (batch_loss (T := Toy.torch) (default_args 0) 0 Toy.nan_batch Toy.fresh))
    = true /\
  (exists g1,
     train_loop (default_args 0) 0 0 [Toy.nan_batch] Toy.fresh = Ok g1 /\
     mean_loss g1 = None) /\
  train_main (default_args 0) [] (0 : @Net Toy.torch)
    (fun _ => [Toy.nan_batch]) [Toy.nan_batch] = Raise NameError.
Proof.
  split; [reflexivity |].
  split; [eexists; split; reflexivity | reflexivity].
Qed.

(* ================================================================== *)
(** * Further properties of the drivers *)

(** ** Counting calls *)

Lemma calls_app (f : event -> bool) (a b : list event) :
  calls f (a ++ b) = (calls f a + calls f b)%nat.
Proof. unfold calls. rewrite filter_app, length_app. reflexivity. Qed.

Lemma saved_epochs_app (a b : list event) :
  saved_epochs (a ++ b) = saved_epochs a ++ saved_epochs b.
Proof.
  induction a as [| e a IH]; cbn; [reflexivity |].
  destruct e; cbn; rewrite IH; reflexivity.
Qed.

Section Accounting.

Context {T : Torch}.
Variable args : Args.

Lemma accounted_refl (g : Globals) : accounted g g.
Proof.
  exists []; repeat split; cbn; try lia.
  symmetry; apply app_nil_r.
Qed.

Lemma accounted_trans (g1 g2 g3 : Globals) :
  accounted g1 g2 -> accounted g2 g3 -> accounted g1 g3.
Proof.
  intros (a & Ea & Ca & Fa & Oa) (c & Ec & Cc & Fc & Oc).
  exists (a ++ c); repeat split.
  - rewrite Ec, Ea; symmetry; apply app_assoc.
  - rewrite calls_app; lia.
  - lia.
  - rewrite !calls_app; lia.
Qed.

(** One batch: a single scheduler step, a single optimizer step, and a
    clip exactly when [step] moves. *)
Lemma train_batch_accounted (epoch batch : Z) (b : Batch) (g g' : Globals) :
  train_batch args epoch batch b g = Ok g' ->
  exists evs,
    trace g' = trace g ++ evs /\
    calls is_batch_step evs = 1%nat /\
    calls is_optimizer_step evs = 1%nat /\
    Z.of_nat (calls is_clip evs) = step g' - step g /\
    flag g' - flag g = step g' - step g /\
    0 <= step g' - step g <= 1 /\
    saved_epochs evs = [] /\
    files g' = files g.
Proof.
  destruct (non_finite (item (batch_loss args epoch b g))) eqn:H; intros E.
  - rewrite (train_batch_non_finite _ _ batch _ _ H) in E; injection E as <-.
    eexists; split; [reflexivity |]. cbn. repeat split; lia.
  - destruct (train_batch_finite _ _ _ _ _ _ H E) as (m & d & s & ->).
    eexists; split; [reflexivity |]. cbn. repeat split; lia.
Qed.

Lemma train_loop_accounted (epoch : Z) (bs : list Batch) :
  forall batch g g',
    train_loop args epoch batch bs g = Ok g' ->
    exists evs,
      trace g' = trace g ++ evs /\
      calls is_batch_step evs = List.length bs /\
      calls is_optimizer_step evs = List.length bs /\
      Z.of_nat (calls is_clip evs) = step g' - step g /\
      flag g' - flag g = step g' - step g /\
      0 <= step g' - step g <= Z.of_nat (List.length bs) /\
      saved_epochs evs = [] /\
      files g' = files g.
Proof.
  induction bs as [| b bs IH]; cbn [train_loop]; intros batch g g' E.
  - injection E as <-. exists []; cbn; repeat split; try lia.
    symmetry; apply app_nil_r.
  - destruct (train_batch args epoch batch b g) as [g1 |] eqn:E1; cbn [bind] in E;
      [| discriminate].
    destruct (train_batch_accounted _ _ _ _ _ E1)
      as (a & Ea & Ba & Oa & Ca & Fa & Ra & Sa & Fia).
    destruct (IH _ _ _ E) as (c & Ec & Bc & Oc & Cc & Fc & Rc & Sc & Fic).
    exists (a ++ c). rewrite !calls_app, saved_epochs_app, Sa, Sc.
    cbn [List.length app]. repeat split; try lia.
    + rewrite Ec, Ea; symmetry; apply app_assoc.
    + congruence.
Qed.

(** The validation loop is read-only: it leaves the weights, the counters
    and the checkpoint files as they are, and logs one 'Validation' scalar
    set per batch, tagged with the epoch. *)
Lemma validation_loop_inv (epoch : Z) (bs : list Batch) :
  forall batch g g',
    validation_loop args epoch batch bs g = Ok g' ->
    net g' = net g /\ step g' = step g /\ flag g' = flag g /\ files g' = files g /\
    (bs <> [] -> means_bound g') /\
    (means_bound g -> means_bound g') /\
    exists evs,
      trace g' = trace g ++ evs /\
      List.length evs = List.length bs /\
      Forall (fun e => exists m d s, e = EvValidationScalars m d s epoch) evs.
Proof.
  induction bs as [| b bs IH]; cbn [validation_loop]; intros batch g g' E.
  - injection E as <-.
    split; [reflexivity |]. split; [reflexivity |].
    split; [reflexivity |]. split; [reflexivity |].
    split; [intros N; contradiction N; reflexivity |].
    split; [intros M; exact M |].
    exists []; split; [symmetry; apply app_nil_r |].
    split; [reflexivity | constructor].
  - destruct (validation_batch args epoch batch b g) as [g1 |] eqn:E1; cbn [bind] in E;
      [| discriminate].
    destruct (validation_batch_inv _ _ _ _ _ _ E1)
      as (S1 & F1 & N1 & Fi1 & M1 & m & d & s & Tr1).
    destruct (IH _ _ _ E) as (N2 & S2 & F2 & Fi2 & _ & M2 & evs & Tr2 & L2 & A2).
    split; [congruence |]. split; [congruence |].
    split; [congruence |]. split; [congruence |].
    split; [intros _; apply M2; exact M1 |].
    split; [intros _; apply M2; exact M1 |].
    exists (EvValidationScalars m d s epoch :: evs).
    split; [rewrite Tr2, Tr1, <- app_assoc; reflexivity |].
    split; [cbn; rewrite L2; reflexivity |].
    constructor; [do 3 eexists; reflexivity | exact A2].
Qed.

End Accounting.

(** ** One epoch and the epoch loop *)

Lemma quiet_validation_events (epoch : Z) (evs : list event) :
  Forall (fun e => exists m d s, e = EvValidationScalars m d s epoch) evs ->
  calls is_clip evs = 0%nat /\ calls is_optimizer_step evs = 0%nat /\
  calls is_batch_step evs = 0%nat /\ saved_epochs evs = [].
Proof.
  induction 1 as [| e evs (m & d & s & ->) _ IH]; [repeat split |].
  unfold calls in *; cbn. exact IH.
Qed.

Lemma range_empty (a b : Z) : b <= a -> range a b = [].
Proof.
  intros H. unfold range. replace (Z.to_nat (b - a)) with 0%nat by lia. reflexivity.
Qed.

Lemma range_spec (a b e : Z) : In e (range a b) <-> a <= e < b.
Proof.
  unfold range. rewrite in_map_iff. split.
  - intros (k & <- & K). apply in_seq in K. lia.
  - intros H. exists (Z.to_nat (e - a)); split; [lia |].
    apply in_seq. lia.
Qed.

Section EpochFacts.

Context {T : Torch}.
Variables (args : Args) (train_loader : Z -> list Batch) (validation_loader : list Batch).

(** How a completed epoch decomposes: the batch loop, then either nothing
    more (the epoch is not a validation epoch) or the validation loop
    followed by the checkpoint. *)
Lemma run_epoch_inv (epoch : Z) (g g' : Globals) :
  run_epoch args train_loader validation_loader epoch g = Ok g' ->
  validation_interval args <> 0 /\
  exists g1,
    train_loop args epoch 0 (train_loader epoch) g = Ok g1 /\
    ((epoch mod validation_interval args <> 0 /\ g' = g1) \/
     (epoch mod validation_interval args = 0 /\
      exists g2,
        validation_loop args epoch 0 validation_loader g1 = Ok g2 /\
        save_checkpoint epoch g2 = Ok g')).
Proof.
  unfold run_epoch.
  destruct (train_loop args epoch 0 (train_loader epoch) g) as [g1 |];
    cbn [bind]; [| discriminate].
  unfold py_mod. destruct (Z.eqb_spec (validation_interval args) 0) as [| V];
    cbn [bind]; [discriminate |].
  destruct (Z.eqb_spec (epoch mod validation_interval args) 0) as [R | R]; cbn [negb].
  - destruct (validation_loop args epoch 0 validation_loader g1) as [g2 |] eqn:E2;
      cbn [bind]; [| discriminate].
    intros E. split; [exact V |]. exists g1; split; [reflexivity |].
    right; split; [exact R |]. exists g2; split; [exact E2 | exact E].
  - intros E; injection E as <-. split; [exact V |].
    exists g1; split; [reflexivity |]. left; split; [exact R | reflexivity].
Qed.

Lemma run_epoch_accounted (epoch : Z) (g g' : Globals) :
  run_epoch args train_loader validation_loader epoch g = Ok g' ->
  exists evs,
    trace g' = trace g ++ evs /\
    Z.of_nat (calls is_clip evs) = step g' - step g /\
    flag g' - flag g = step g' - step g /\
    calls is_optimizer_step evs = calls is_batch_step evs /\
    0 <= step g' - step g /\
    saved_epochs evs = epoch_saves args epoch.
Proof.
  intros E. destruct (run_epoch_inv _ _ _ E) as (V & g1 & E1 & Tail).
  destruct (train_loop_accounted _ _ _ _ _ _ E1)
    as (a & Ea & Ba & Oa & Ca & Fa & Ra & Sa & _).
  unfold epoch_saves.
  destruct Tail as [(R & ->) | (R & g2 & E2 & E3)].
  - apply Z.eqb_neq in R; rewrite R.
    exists a; repeat split; try lia; try assumption.
  - rewrite R; cbn [Z.eqb].
    destruct (validation_loop_inv _ _ _ _ _ _ E2)
      as (_ & S2 & F2 & _ & _ & _ & v & Ev & _ & Av).
    destruct (quiet_validation_events _ _ Av) as (Cv & Ov & Bv & Sv).
    destruct (save_checkpoint_inv _ _ _ E3) as (s & _ & S3 & F3 & _ & _ & E3').
    exists (a ++ v ++ [EvSaveModel (epoch + 1) (step g2) (model_path_epoch epoch s)]).
    rewrite !calls_app, !saved_epochs_app, Sa, Sv, Cv, Ov, Bv.
    cbn. repeat split; try lia.
    rewrite E3', Ev, Ea, <- !app_assoc; reflexivity.
Qed.

Lemma epoch_loop_accounted (epochs : list Z) :
  forall g g',
    epoch_loop args train_loader validation_loader epochs g = Ok g' ->
    exists evs,
      trace g' = trace g ++ evs /\
      Z.of_nat (calls is_clip evs) = step g' - step g /\
      flag g' - flag g = step g' - step g /\
      calls is_optimizer_step evs = calls is_batch_step evs /\
      0 <= step g' - step g /\
      saved_epochs evs = flat_map (epoch_saves args) epochs.
Proof.
  induction epochs as [| epoch rest IH]; cbn [epoch_loop flat_map]; intros g g' E.
  - injection E as <-. exists []; cbn; repeat split; try lia.
    symmetry; apply app_nil_r.
  - destruct (run_epoch args train_loader validation_loader epoch g) as [g1 |] eqn:E1;
      cbn [bind] in E; [| discriminate].
    destruct (run_epoch_accounted _ _ _ E1) as (a & Ea & Ca & Fa & Oa & Ra & Sa).
    destruct (IH _ _ E) as (c & Ec & Cc & Fc & Oc & Rc & Sc).
    exists (a ++ c). rewrite !calls_app, saved_epochs_app, Sa, Sc.
    repeat split; try lia.
    rewrite Ec, Ea; symmetry; apply app_assoc.
Qed.

End EpochFacts.

(** ** What a user of the training script can rely on *)

(** X3.  In the batch loop of an epoch every batch, whatever its loss,
    steps the scheduler once and the optimizer once.  [step] and [flag]
    advance together, by the number of batches whose gradient was clipped
    (the finite ones), so by at most the number of batches; no checkpoint
    is written. *)
Theorem one_optimizer_step_per_batch
    {T : Torch} (args : Args) (epoch batch : Z) (bs : list Batch) (g g' : Globals) :
  train_loop args epoch batch bs g = Ok g' ->
  exists evs,
    trace g' = trace g ++ evs /\
    calls is_batch_step evs = List.length bs /\
    calls is_optimizer_step evs = List.length bs /\
    Z.of_nat (calls is_clip evs) = step g' - step g /\
    flag g' - flag g = step g' - step g /\
    step g <= step g' <= step g + Z.of_nat (List.length bs) /\
    files g' = files g.
Proof.
  intros E.
  destruct (train_loop_accounted _ _ _ _ _ _ E) as (evs & Tr & B & O & C & F & R & _ & Fi).
  exists evs; repeat split; try assumption; lia.
Qed.

Lemma one_optimizer_step_per_batch_witness :
  exists g' evs,
    train_loop (default_args 1) 0 0 [Toy.good_batch; Toy.nan_batch; Toy.good_batch]
      Toy.fresh = Ok g' /\
    trace g' = evs /\
    calls is_optimizer_step evs = 3%nat /\
    Z.of_nat (calls is_clip evs) = step g' - 0.
Proof.
  assert (E : exists g',
             train_loop (default_args 1) 0 0
               [Toy.good_batch; Toy.nan_batch; Toy.good_batch] Toy.fresh = Ok g')
    by (eexists; vm_compute; reflexivity).
  destruct E as [g' E].
  destruct (one_optimizer_step_per_batch (T := Toy.torch) _ _ _ _ _ _ E)
    as (evs & Tr & _ & O & C & _).
  exists g', evs. split; [exact E |]. split; [exact Tr |]. split; [exact O | exact C].
Defined.

(** X4.  In a completed run [step] is the restored step count plus
    [flag]: it counts the finite-loss batches, and only those.  The
    gradient was clipped exactly [flag] times, and the optimizer stepped
    exactly as often as the scheduler. *)
Theorem step_is_restored_step_plus_flag
    {T : Torch} (args : Args) (fs : Files) (net0 : Net)
    (train_loader : Z -> list Batch) (validation_loader : list Batch)
    (epoch0 step0 : Z) (net1 : Net) (g : Globals) :
  restore args fs net0 = Ok (epoch0, step0, net1) ->
  train_main args fs net0 train_loader validation_loader = Ok g ->
  step g = step0 + flag g /\
  0 <= flag g /\
  Z.of_nat (calls is_clip (trace g)) = flag g /\
  calls is_optimizer_step (trace g) = calls is_batch_step (trace g).
Proof.
  intros R. unfold train_main. rewrite R; cbn [bind]. intros E.
  destruct (epoch_loop_accounted _ _ _ _ _ _ E) as (evs & Tr & C & F & O & P & _).
  cbn [step flag trace app] in *. rewrite Tr.
  repeat split; try lia; exact O.
Qed.

Lemma step_is_restored_step_plus_flag_witness :
  exists g,
    train_main (default_args 1) [] (0 : @Net Toy.torch)
      (fun _ => [Toy.good_batch; Toy.nan_batch]) [Toy.good_batch] = Ok g /\
    step g = 0 + flag g.
Proof.
  assert (E : exists g,
             train_main (default_args 1) [] (0 : @Net Toy.torch)
               (fun _ => [Toy.good_batch; Toy.nan_batch]) [Toy.good_batch] = Ok g)
    by (eexists; vm_compute; reflexivity).
  destruct E as [g E].
  exists g; split; [exact E |].
  exact (proj1 (step_is_restored_step_plus_flag (T := Toy.torch) (default_args 1) [] 0
                  (fun _ => [Toy.good_batch; Toy.nan_batch]) [Toy.good_batch]
                  0 0 0 g eq_refl E)).
Defined.

(** X5.  The validation loop is read-only on everything that training
    and checkpointing depend on: the weights, [step], [flag] and the
    checkpoint files come out as they went in.  It logs one 'Validation'
    scalar set per batch, indexed by the epoch, and makes no optimizer,
    scheduler or checkpoint call. *)
Theorem validation_is_read_only
    {T : Torch} (args : Args) (epoch batch : Z) (bs : list Batch) (g g' : Globals) :
  validation_loop args epoch batch bs g = Ok g' ->
  net g' = net g /\ step g' = step g /\ flag g' = flag g /\ files g' = files g /\
  exists evs,
    trace g' = trace g ++ evs /\
    List.length evs = List.length bs /\
    Forall (fun e => exists m d s, e = EvValidationScalars m d s epoch) evs /\
    calls is_optimizer_step evs = 0%nat /\
    calls is_batch_step evs = 0%nat /\
    saved_epochs evs = [].
Proof.
  intros E.
  destruct (validation_loop_inv _ _ _ _ _ _ E) as (N & S & F & Fi & _ & _ & evs & Tr & L & A).
  destruct (quiet_validation_events _ _ A) as (_ & O & B & Sv).
  repeat split; try assumption.
  exists evs; repeat split; assumption.
Qed.

Lemma validation_is_read_only_witness :
  exists g',
    validation_loop (default_args 1) 0 0 [Toy.good_batch; Toy.nan_batch] Toy.warm = Ok g' /\
    net g' = 7 /\ step g' = 7.
Proof.
  assert (E : exists g',
             validation_loop (default_args 1) 0 0 [Toy.good_batch; Toy.nan_batch] Toy.warm
             = Ok g')
    by (eexists; vm_compute; reflexivity).
  destruct E as [g' E].
  destruct (validation_is_read_only (T := Toy.torch) _ _ _ _ _ _ E) as (N & S & _).
  exists g'; split; [exact E |]. split; [exact N | exact S].
Defined.

(** X6.  A completed run calls [save_model] for exactly the epochs
    between the starting epoch and [number_epoch], both included, that are
    multiples of [validation_interval], in increasing order, and each time
    with [epoch + 1]. *)
Theorem checkpoints_follow_validation_interval
    {T : Torch} (args : Args) (fs : Files) (net0 : Net)
    (train_loader : Z -> list Batch) (validation_loader : list Batch)
    (epoch0 step0 : Z) (net1 : Net) (g : Globals) :
  restore args fs net0 = Ok (epoch0, step0, net1) ->
  train_main args fs net0 train_loader validation_loader = Ok g ->
  saved_epochs (trace g)
    = flat_map (epoch_saves args) (range epoch0 (number_epoch args + 1)) /\
  (forall e,
     In e (saved_epochs (trace g)) <->
     epoch0 <= e - 1 <= number_epoch args /\ (e - 1) mod validation_interval args = 0).
Proof.
  intros R. unfold train_main. rewrite R; cbn [bind]. intros E.
  destruct (epoch_loop_accounted _ _ _ _ _ _ E) as (evs & Tr & _ & _ & _ & _ & Sv).
  cbn [trace app] in Tr. rewrite Tr, Sv. split; [reflexivity |].
  intros e. rewrite in_flat_map. split.
  - intros (x & X & S). apply range_spec in X. unfold epoch_saves in S.
    destruct (Z.eqb_spec (x mod validation_interval args) 0) as [M |]; [| contradiction].
    destruct S as [<- | []]. replace (x + 1 - 1) with x by ring. split; [lia | exact M].
  - intros (B & M). exists (e - 1); split; [apply range_spec; lia |].
    unfold epoch_saves. rewrite M; cbn. left; ring.
Qed.

Lemma checkpoints_follow_validation_interval_witness :
  exists g,
    train_main (default_args 2) [] (0 : @Net Toy.torch)
      (fun _ => [Toy.good_batch]) [Toy.good_batch] = Ok g /\
    saved_epochs (trace g) = [1; 2; 3].
Proof.
  assert (E : exists g,
             train_main (default_args 2) [] (0 : @Net Toy.torch)
               (fun _ => [Toy.good_batch]) [Toy.good_batch] = Ok g)
    by (eexists; vm_compute; reflexivity).
  destruct E as [g E].
  exists g; split; [exact E |].
  exact (proj1 (checkpoints_follow_validation_interval (T := Toy.torch) (default_args 2)
                  [] 0 (fun _ => [Toy.good_batch]) [Toy.good_batch] 0 0 0 g eq_refl E)).
Defined.

(** X7.  The checkpoint of a validation epoch holds the weights and the
    step count as the batch loop of that epoch left them (validation does
    not move them), labelled with [epoch + 1]; an epoch that is not a
    multiple of [validation_interval] is the batch loop alone and leaves
    the checkpoint files untouched. *)
Theorem checkpoint_holds_state_after_training
    {T : Torch} (args : Args) (train_loader : Z -> list Batch)
    (validation_loader : list Batch) (epoch : Z) (g g' : Globals) :
  run_epoch args train_loader validation_loader epoch g = Ok g' ->
  exists g1,
    train_loop args epoch 0 (train_loader epoch) g = Ok g1 /\
    net g' = net g1 /\ step g' = step g1 /\
    (epoch mod validation_interval args = 0 ->
     exists s,
       torch_load (files g') (model_path_epoch epoch s)
         = Some {| ck_model := state_dict (net g1);
                   ck_epoch := epoch + 1;
                   ck_step := step g1;
                   ck_validation := s |}) /\
    (epoch mod validation_interval args <> 0 -> g' = g1 /\ files g' = files g).
Proof.
  intros E. destruct (run_epoch_inv _ _ _ _ _ _ E) as (V & g1 & E1 & Tail).
  destruct (train_loop_accounted _ _ _ _ _ _ E1) as (_ & _ & _ & _ & _ & _ & _ & _ & Fi1).
  exists g1; split; [exact E1 |].
  destruct Tail as [(R & ->) | (R & g2 & E2 & E3)].
  - repeat split; try assumption; intros; contradiction.
  - destruct (validation_loop_inv _ _ _ _ _ _ E2) as (N2 & S2 & _ & _).
    destruct (save_checkpoint_inv _ _ _ E3) as (s & _ & S3 & _ & N3 & F3 & _).
    split; [congruence |]. split; [congruence |]. split; [| intros; contradiction].
    intros _. exists s. rewrite F3, N2, S2. apply torch_load_after_save.
Qed.

Lemma checkpoint_holds_state_after_training_witness :
  exists g' g1,
    run_epoch (default_args 1) (fun _ => [Toy.good_batch; Toy.nan_batch]) [Toy.good_batch]
      0 Toy.fresh = Ok g' /\
    train_loop (default_args 1) 0 0 [Toy.good_batch; Toy.nan_batch] Toy.fresh = Ok g1 /\
    net g' = net g1 /\ step g' = step g1.
Proof.
  assert (E : exists g',
             run_epoch (default_args 1) (fun _ => [Toy.good_batch; Toy.nan_batch])
               [Toy.good_batch] 0 Toy.fresh = Ok g')
    by (eexists; vm_compute; reflexivity).
  destruct E as [g' E].
  destruct (checkpoint_holds_state_after_training (T := Toy.torch) _ _ _ _ _ _ E)
    as (g1 & E1 & N & S & _).
  exists g', g1. split; [exact E |]. split; [exact E1 |]. split; [exact N | exact S].
Defined.

Lemma every_optimizer_step_licensed_witness :
  exists g,
    train_main (default_args 1) [] (0 : @Net Toy.torch)
      (fun _ => [Toy.good_batch; Toy.nan_batch]) [Toy.good_batch] = Ok g /\
    steps_licensed None (trace g).
Proof.
  assert (E : exists g,
             train_main (default_args 1) [] (0 : @Net Toy.torch)
               (fun _ => [Toy.good_batch; Toy.nan_batch]) [Toy.good_batch] = Ok g)
    by (eexists; vm_compute; reflexivity).
  destruct E as [g E].
  exists g; split; [exact E |].
  exact (every_optimizer_step_licensed (T := Toy.torch) (default_args 1)
           (fun _ => [Toy.good_batch; Toy.nan_batch]) [Toy.good_batch] [] 0 g E).
Defined.

(** ** Runs that cannot abort, and the one way a NaN can abort a run *)

Section Completion.

Context {T : Torch}.
Variable args : Args.
Hypothesis display_each_not_zero : display_interval args <> 0.

Lemma train_batch_completes_bound (epoch batch : Z) (b : Batch) (g : Globals) :
  means_bound g ->
  exists g', train_batch args epoch batch b g = Ok g' /\ means_bound g'.
Proof.
  intros M.
  destruct (train_batch_completes args display_each_not_zero epoch batch b g
              (or_intror M)) as (g' & E & _).
  exists g'; split; [exact E |].
  destruct (non_finite (item (batch_loss args epoch b g))) eqn:H.
  - rewrite (train_batch_non_finite _ _ batch _ _ H) in E; injection E as <-.
    exact M.
  - destruct (train_batch_finite _ _ _ _ _ _ H E) as (m & d & s & ->).
    unfold means_bound; cbn; repeat split; discriminate.
Qed.

Lemma train_loop_completes_bound (epoch : Z) (bs : list Batch) :
  forall batch g,
    means_bound g ->
    exists g', train_loop args epoch batch bs g = Ok g' /\ means_bound g'.
Proof.
  induction bs as [| b bs IH]; cbn [train_loop]; intros batch g M.
  - exists g; split; [reflexivity | exact M].
  - destruct (train_batch_completes_bound epoch batch b g M) as (g1 & E1 & M1).
    rewrite E1; cbn [bind]. apply IH; exact M1.
Qed.

Lemma validation_batch_completes (epoch batch : Z) (b : Batch) (g : Globals) :
  means_bound g ->
  exists g', validation_batch args epoch batch b g = Ok g' /\ means_bound g'.
Proof.
  intros (M & D & S).
  assert (E : exists g', validation_batch args epoch batch b g = Ok g').
  { unfold validation_batch.
    set (f := validation_forward _ _ _ _).
    assert (P : py_mod batch (display_interval args)
                = Ok (batch mod display_interval args)).
    { unfold py_mod.
      destruct (Z.eqb_spec (display_interval args) 0); [contradiction | reflexivity]. }
    destruct (mean_loss g); [| contradiction].
    destruct (mean_depth_consistency_loss g); [| contradiction].
    destruct (mean_sparse_flow_loss g); [| contradiction].
    destruct (negb (PrimFloat.is_nan (item (v_loss f)))); [destruct (batch =? 0) |];
      cbn [bind read_name]; rewrite P; cbn [bind read_name]; eexists; reflexivity. }
  destruct E as (g' & E). exists g'; split; [exact E |].
  exact (proj1 (proj2 (proj2 (proj2 (proj2 (validation_batch_inv _ _ _ _ _ _ E)))))).
Qed.

Lemma validation_loop_completes (epoch : Z) (bs : list Batch) :
  forall batch g,
    means_bound g ->
    exists g', validation_loop args epoch batch bs g = Ok g' /\ means_bound g'.
Proof.
  induction bs as [| b bs IH]; cbn [validation_loop]; intros batch g M.
  - exists g; split; [reflexivity | exact M].
  - destruct (validation_batch_completes epoch batch b g M) as (g1 & E1 & M1).
    rewrite E1; cbn [bind]. apply IH; exact M1.
Qed.

Lemma save_checkpoint_completes (epoch : Z) (g : Globals) :
  means_bound g ->
  exists g', save_checkpoint epoch g = Ok g' /\ means_bound g'.
Proof.
  intros (M & D & S). unfold save_checkpoint.
  destruct (mean_sparse_flow_loss g) as [s |] eqn:Es; [| contradiction].
  cbn [read_name bind]. eexists; split; [reflexivity |].
  unfold means_bound; cbn. repeat split; assumption.
Qed.

Variables (train_loader : Z -> list Batch) (validation_loader : list Batch).
Hypothesis validation_each_not_zero : validation_interval args <> 0.

(** Once the batch loop of an epoch has ended with the means assigned, the
    rest of the epoch goes through. *)
Lemma run_epoch_tail_completes (epoch : Z) (g g1 : Globals) :
  train_loop args epoch 0 (train_loader epoch) g = Ok g1 ->
  means_bound g1 ->
  exists g', run_epoch args train_loader validation_loader epoch g = Ok g' /\ means_bound g'.
Proof.
  intros E1 M1. unfold run_epoch. rewrite E1; cbn [bind].
  unfold py_mod.
  destruct (Z.eqb_spec (validation_interval args) 0); [contradiction |]; cbn [bind].
  destruct (negb (epoch mod validation_interval args =? 0)).
  - exists g1; split; [reflexivity | exact M1].
  - destruct (validation_loop_completes epoch validation_loader 0 g1 M1) as (g2 & E2 & M2).
    rewrite E2; cbn [bind]. apply save_checkpoint_completes; exact M2.
Qed.

Lemma run_epoch_completes (epoch : Z) (g : Globals) :
  means_bound g ->
  exists g', run_epoch args train_loader validation_loader epoch g = Ok g' /\ means_bound g'.
Proof.
  intros M.
  destruct (train_loop_completes_bound epoch (train_loader epoch) 0 g M) as (g1 & E1 & M1).
  exact (run_epoch_tail_completes epoch g g1 E1 M1).
Qed.

Lemma epoch_loop_completes (epochs : list Z) :
  forall g,
    means_bound g ->
    exists g',
      epoch_loop args train_loader validation_loader epochs g = Ok g' /\ means_bound g'.
Proof.
  induction epochs as [| epoch rest IH]; cbn [epoch_loop]; intros g M.
  - exists g; split; [reflexivity | exact M].
  - destruct (run_epoch_completes epoch g M) as (g1 & E1 & M1).
    rewrite E1; cbn [bind]. apply IH; exact M1.
Qed.

End Completion.

(** X2.  The batch loop of an epoch cannot be brought down by the data:
    with a non-zero display interval, and started in a state the script
    can be in ([flag] still 0, or the running means assigned), it runs
    through any list of batches, whatever their losses, and ends in such a
    state again. *)
Theorem batch_loop_never_raises
    {T : Torch} (args : Args) (epoch batch : Z) (bs : list Batch) (g : Globals) :
  display_interval args <> 0 ->
  means_ready g ->
  exists g',
    train_loop args epoch batch bs g = Ok g' /\ means_ready g' /\
    forall e, train_loop args epoch batch bs g <> Raise e.
Proof.
  intros D R.
  destruct (train_loop_completes args D epoch bs batch g R) as (g' & E & R').
  exists g'; split; [exact E |]. split; [exact R' |].
  intros e; rewrite E; discriminate.
Qed.

Lemma batch_loop_never_raises_witness :
  exists g',
    train_loop (default_args 1) 0 0 [Toy.nan_batch; Toy.nan_batch; Toy.good_batch]
      Toy.fresh = Ok g'.
Proof.
  destruct (batch_loop_never_raises (T := Toy.torch) (default_args 1) 0 0
              [Toy.nan_batch; Toy.nan_batch; Toy.good_batch] Toy.fresh)
    as (g' & E & _).
  - discriminate.
  - left; reflexivity.
  - exists g'; exact E.
Defined.

(** X9.  With non-zero display and validation intervals, nothing can
    abort the epoch loop once the running means are assigned: every
    remaining epoch trains, validates and checkpoints, whatever the losses.
    In particular a run started from scratch completes as soon as the very
    first training batch has a finite loss. *)
Theorem run_completes_once_means_are_bound
    {T : Torch} (args : Args) (fs : Files) (net0 : Net)
    (train_loader : Z -> list Batch) (validation_loader : list Batch) :
  display_interval args <> 0 ->
  validation_interval args <> 0 ->
  (forall epochs g,
     means_bound g ->
     exists g', epoch_loop args train_loader validation_loader epochs g = Ok g') /\
  (load_trained_model args = false ->
   forall b bs,
     train_loader 0 = b :: bs ->
     non_finite (item (batch_loss args 0 b (entry_globals 0 net0 fs))) = false ->
     exists g, train_main args fs net0 train_loader validation_loader = Ok g).
Proof.
  intros D V. split.
  - intros epochs g M.
    destruct (epoch_loop_completes args D train_loader validation_loader V epochs g M)
      as (g' & E & _).
    exists g'; exact E.
  - intros L b bs Hb Hf. unfold train_main, restore. rewrite L; cbn [bind].
    change {| step := 0; flag := 0; mean_loss := None;
              mean_depth_consistency_loss := None; mean_sparse_flow_loss := None;
              net := net0; files := fs; trace := [] |}
      with (entry_globals 0 net0 fs).
    destruct (Z_lt_le_dec 0 (number_epoch args + 1)) as [N | N];
      [| rewrite (range_empty _ _ N); eexists; reflexivity].
    rewrite (range_cons _ _ N); cbn [epoch_loop].
    assert (E1 : exists g1,
               train_loop args 0 0 (train_loader 0) (entry_globals 0 net0 fs) = Ok g1 /\
               means_bound g1).
    { rewrite Hb; cbn [train_loop].
      destruct (train_batch_finite_completes args 0 0 b (entry_globals 0 net0 fs)
                  Hf D (or_introl eq_refl)) as (g0 & E0).
      rewrite E0; cbn [bind].
      apply (train_loop_completes_bound args D).
      destruct (train_batch_finite _ _ _ _ _ _ Hf E0) as (m & d & s & ->).
      unfold means_bound; cbn; repeat split; discriminate. }
    destruct E1 as (g1 & E1 & M1).
    destruct (run_epoch_tail_completes args D train_loader validation_loader V
                0 _ g1 E1 M1) as (g2 & E2 & M2).
    rewrite E2; cbn [bind].
    destruct (epoch_loop_completes args D train_loader validation_loader V
                (range (0 + 1) (number_epoch args + 1)) g2 M2) as (g' & E & _).
    exists g'; exact E.
Qed.

Lemma run_completes_once_means_are_bound_witness :
  exists g,
    train_main (default_args 3) [] (0 : @Net Toy.torch)
      (fun epoch => if epoch =? 0 then [Toy.good_batch; Toy.nan_batch] else [Toy.nan_batch])
      [Toy.nan_batch] = Ok g.
Proof.
  destruct (run_completes_once_means_are_bound (T := Toy.torch) (default_args 3) [] 0
              (fun epoch =>
                 if epoch =? 0 then [Toy.good_batch; Toy.nan_batch] else [Toy.nan_batch])
              [Toy.nan_batch]) as [_ Fresh].
  - discriminate.
  - discriminate.
  - exact (Fresh eq_refl Toy.good_batch [Toy.nan_batch] eq_refl eq_refl).
Defined.

(** X10.  A run whose starting epoch lies beyond [--number_epoch] does
    nothing: no batch is trained, nothing is validated and no checkpoint
    is written.  This is what resuming from the checkpoint of the last
    epoch does, since that checkpoint holds [number_epoch + 1]. *)
Theorem resume_past_last_epoch_trains_nothing
    {T : Torch} (args : Args) (fs : Files) (net0 : Net)
    (train_loader : Z -> list Batch) (validation_loader : list Batch)
    (epoch0 step0 : Z) (net1 : Net) :
  restore args fs net0 = Ok (epoch0, step0, net1) ->
  number_epoch args < epoch0 ->
  train_main args fs net0 train_loader validation_loader
    = Ok (entry_globals step0 net1 fs).
Proof.
  intros R H. unfold train_main. rewrite R; cbn [bind].
  rewrite range_empty by lia. reflexivity.
Qed.

Lemma resume_past_last_epoch_trains_nothing_witness :
  train_main (T := Toy.torch) (Toy.resume_args 4 "last.pt") Toy.last_files 0
    (fun _ => [Toy.good_batch]) [Toy.good_batch]
  = Ok (entry_globals (T := Toy.torch) 12 9 Toy.last_files).
Proof.
  apply (resume_past_last_epoch_trains_nothing (T := Toy.torch)
           (Toy.resume_args 4 "last.pt") Toy.last_files 0 _ _ 5 12 9).
  - reflexivity.
  - cbn; lia.
Defined.

Lemma losses_invariant_under_view_swap_witness :
  v_sparse_flow_loss
    (forward_pair (T := ToyZ.torch) Z.abs (default_args 1) 0.1%float 0
       (swap_views ToyZ.lopsided_batch))
  = v_sparse_flow_loss
      (forward_pair (T := ToyZ.torch) Z.abs (default_args 1) 0.1%float 0
         ToyZ.lopsided_batch).
Proof.
  exact (proj1 (losses_invariant_under_view_swap (T := ToyZ.torch) Z.abs (default_args 1)
                  0.1%float 0 ToyZ.lopsided_batch Z.add_comm)).
Defined.

(** X12.  [--validation_interval 0] brings the run down with
    [ZeroDivisionError] at the end of the batch loop of its first epoch,
    before anything is validated or saved, whatever the data. *)
Theorem zero_validation_interval_aborts_first_epoch
    {T : Torch} (args : Args) (fs : Files) (net0 : Net)
    (train_loader : Z -> list Batch) (validation_loader : list Batch)
    (epoch0 step0 : Z) (net1 : Net) :
  restore args fs net0 = Ok (epoch0, step0, net1) ->
  epoch0 <= number_epoch args ->
  validation_interval args = 0 ->
  display_interval args <> 0 ->
  train_main args fs net0 train_loader validation_loader = Raise ZeroDivisionError.
Proof.
  intros R H V D. unfold train_main. rewrite R; cbn [bind].
  rewrite range_cons by lia. cbn [epoch_loop]. unfold run_epoch.
  destruct (train_loop_completes args D epoch0 (train_loader epoch0) 0
              {| step := step0; flag := 0; mean_loss := None;
                 mean_depth_consistency_loss := None; mean_sparse_flow_loss := None;
                 net := net1; files := fs; trace := [] |} (or_introl eq_refl))
    as (g1 & E1 & _).
  rewrite E1; cbn [bind]. unfold py_mod. rewrite V; reflexivity.
Qed.

Lemma zero_validation_interval_aborts_first_epoch_witness :
  train_main (Toy.never_validating_args 5) [] (0 : @Net Toy.torch)
    (fun _ => [Toy.good_batch]) [Toy.good_batch]
  = Raise ZeroDivisionError.
Proof.
  apply (zero_validation_interval_aborts_first_epoch (T := Toy.torch)
           (Toy.never_validating_args 5) [] 0 _ _ 0 0 0).
  - reflexivity.
  - cbn; lia.
  - reflexivity.
  - discriminate.
Defined.

(** X13.  An epoch can end in [NameError] in one situation only: no batch
    with a finite loss has been trained since the script started.  The
    batch loop of that epoch itself went through, with [flag] still 0 and
    [step] where it was: every one of its batches was non-finite. *)
Theorem name_error_only_before_first_finite_batch
    {T : Torch} (args : Args) (train_loader : Z -> list Batch)
    (validation_loader : list Batch) (epoch : Z) (g : Globals) :
  run_epoch args train_loader validation_loader epoch g = Raise NameError ->
  display_interval args <> 0 ->
  means_ready g ->
  exists g1,
    train_loop args epoch 0 (train_loader epoch) g = Ok g1 /\
    flag g = 0 /\ flag g1 = 0 /\ step g1 = step g /\ ~ means_bound g1.
Proof.
  intros E D R.
  destruct (train_loop_completes args D epoch (train_loader epoch) 0 g R)
    as (g1 & E1 & R1).
  assert (N1 : ~ means_bound g1).
  { intros M1.
    destruct (Z.eq_dec (validation_interval args) 0) as [V | V].
    - unfold run_epoch in E. rewrite E1 in E; cbn [bind] in E.
      unfold py_mod in E. rewrite V in E. discriminate E.
    - destruct (run_epoch_tail_completes args D train_loader validation_loader V
                  epoch g g1 E1 M1) as (g' & E' & _).
      rewrite E' in E. discriminate E. }
  assert (F1 : flag g1 = 0) by (destruct R1 as [F | M]; [exact F | contradiction]).
  assert (F0 : flag g = 0).
  { destruct R as [F | M]; [exact F |].
    destruct (train_loop_completes_bound args D epoch (train_loader epoch) 0 g M)
      as (g1' & E1' & M1').
    rewrite E1 in E1'. injection E1' as <-. contradiction. }
  destruct (train_loop_accounted _ _ _ _ _ _ E1) as (_ & _ & _ & _ & _ & Fl & _).
  exists g1. repeat split; try assumption. lia.
Qed.

Lemma name_error_only_before_first_finite_batch_witness :
  exists g1,
    train_loop (default_args 1) 0 0 [Toy.nan_batch; Toy.nan_batch] Toy.fresh = Ok g1 /\
    flag g1 = 0 /\ step g1 = 0.
Proof.
  destruct (name_error_only_before_first_finite_batch (T := Toy.torch) (default_args 1)
              (fun _ => [Toy.nan_batch; Toy.nan_batch]) [Toy.nan_batch] 0 Toy.fresh)
    as (g1 & E1 & _ & F1 & S1 & _).
  - vm_compute; reflexivity.
  - discriminate.
  - left; reflexivity.
  - exists g1; split; [exact E1 |]. split; [exact F1 | exact S1].
Defined.

(** ** What the scheduler is fed *)

Lemma batch_step_args_app (a b : list event) :
  batch_step_args (a ++ b) = batch_step_args a ++ batch_step_args b.
Proof.
  induction a as [| e a IH]; cbn; [reflexivity |].
  destruct e; cbn; rewrite IH; reflexivity.
Qed.

Lemma stepped_from_app (a b : list Z) (s2 : Z) :
  forall s s1,
    stepped_from s a s1 -> stepped_from s1 b s2 -> stepped_from s (a ++ b) s2.
Proof.
  induction a as [| x a IH]; cbn; intros s s1 Ha Hb.
  - subst s1; exact Hb.
  - destruct Ha as (-> & [Ha | Ha]); (split; [reflexivity |]).
    + left; exact (IH _ _ Ha Hb).
    + right; exact (IH _ _ Ha Hb).
Qed.

Lemma stepped_from_bounds (l : list Z) (s' : Z) :
  forall s, stepped_from s l s' -> s <= s' /\ Forall (fun x => s <= x <= s') l.
Proof.
  induction l as [| x l IH]; cbn; intros s H.
  - subst s'; split; [lia | constructor].
  - destruct H as (-> & [H | H]); destruct (IH _ H) as (B & A).
    + split; [exact B |]. constructor; [lia | exact A].
    + split; [lia |]. constructor; [lia |].
      eapply Forall_impl; [| exact A]. cbn; intros; lia.
Qed.

Lemma quiet_validation_schedule (epoch : Z) (evs : list event) :
  Forall (fun e => exists m d s, e = EvValidationScalars m d s epoch) evs ->
  batch_step_args evs = [].
Proof.
  induction 1 as [| e evs (m & d & s & ->) _ IH]; [reflexivity | exact IH].
Qed.

Section Schedule.

Context {T : Torch}.
Variable args : Args.

(** [g'] is reached from [g] with the scheduler fed as [stepped_from]
    describes. *)
Let fed (g g' : Globals) : Prop :=
  exists evs,
    trace g' = trace g ++ evs /\
    stepped_from (step g) (batch_step_args evs) (step g').

Lemma fed_refl (g : Globals) : fed g g.
Proof. exists []; split; [symmetry; apply app_nil_r | reflexivity]. Qed.

Lemma fed_trans (g1 g2 g3 : Globals) : fed g1 g2 -> fed g2 g3 -> fed g1 g3.
Proof.
  intros (a & Ea & Sa) (c & Ec & Sc).
  exists (a ++ c); split.
  - rewrite Ec, Ea; symmetry; apply app_assoc.
  - rewrite batch_step_args_app. exact (stepped_from_app _ _ _ _ _ Sa Sc).
Qed.

Lemma train_batch_fed (epoch batch : Z) (b : Batch) (g g' : Globals) :
  train_batch args epoch batch b g = Ok g' -> fed g g'.
Proof.
  destruct (non_finite (item (batch_loss args epoch b g))) eqn:H; intros E.
  - rewrite (train_batch_non_finite _ _ batch _ _ H) in E; injection E as <-.
    eexists; split; [reflexivity |]. cbn. split; [reflexivity | left; reflexivity].
  - destruct (train_batch_finite _ _ _ _ _ _ H E) as (m & d & s & ->).
    eexists; split; [reflexivity |]. cbn. split; [reflexivity | right; reflexivity].
Qed.

Lemma train_loop_fed (epoch : Z) (bs : list Batch) :
  forall batch g g', train_loop args epoch batch bs g = Ok g' -> fed g g'.
Proof.
  induction bs as [| b bs IH]; cbn [train_loop]; intros batch g g' E.
  - injection E as <-; apply fed_refl.
  - destruct (train_batch args epoch batch b g) as [g1 |] eqn:E1; cbn [bind] in E;
      [| discriminate].
    exact (fed_trans _ _ _ (train_batch_fed _ _ _ _ _ E1) (IH _ _ _ E)).
Qed.

Variables (train_loader : Z -> list Batch) (validation_loader : list Batch).

Lemma run_epoch_fed (epoch : Z) (g g' : Globals) :
  run_epoch args train_loader validation_loader epoch g = Ok g' -> fed g g'.
Proof.
  intros E. destruct (run_epoch_inv _ _ _ _ _ _ E) as (_ & g1 & E1 & Tail).
  pose proof (train_loop_fed _ _ _ _ _ E1) as F1.
  destruct Tail as [(_ & ->) | (_ & g2 & E2 & E3)]; [exact F1 |].
  destruct (validation_loop_inv _ _ _ _ _ _ E2)
    as (_ & S2 & _ & _ & _ & _ & v & Ev & _ & Av).
  destruct (save_checkpoint_inv _ _ _ E3) as (s & _ & S3 & _ & _ & _ & E3').
  apply (fed_trans _ g1 _ F1).
  exists (v ++ [EvSaveModel (epoch + 1) (step g2) (model_path_epoch epoch s)]); split.
  - rewrite E3', Ev, <- app_assoc; reflexivity.
  - rewrite batch_step_args_app, (quiet_validation_schedule _ _ Av). cbn. congruence.
Qed.

Lemma epoch_loop_fed (epochs : list Z) :
  forall g g',
    epoch_loop args train_loader validation_loader epochs g = Ok g' -> fed g g'.
Proof.
  induction epochs as [| epoch rest IH]; cbn [epoch_loop]; intros g g' E.
  - injection E as <-; apply fed_refl.
  - destruct (run_epoch args train_loader validation_loader epoch g) as [g1 |] eqn:E1;
      cbn [bind] in E; [| discriminate].
    exact (fed_trans _ _ _ (run_epoch_fed _ _ _ E1) (IH _ _ E)).
Qed.

(** X15.  Over a completed run the scheduler is fed the step counter as
    it stands at the start of each batch: the first call gets the restored
    step count, and each later call gets the value of the call before it
    (that batch was skipped as non-finite) or that value plus one (it was
    trained).  So the iterations fed never decrease, never jump, and lie
    between the restored and the final [step]. *)
Theorem scheduler_is_fed_the_step_counter
    (fs : Files) (net0 : Net) (epoch0 step0 : Z) (net1 : Net) (g : Globals) :
  restore args fs net0 = Ok (epoch0, step0, net1) ->
  train_main args fs net0 train_loader validation_loader = Ok g ->
  stepped_from step0 (batch_step_args (trace g)) (step g) /\
  step0 <= step g /\
  Forall (fun x => step0 <= x <= step g) (batch_step_args (trace g)).
Proof.
  intros R. unfold train_main. rewrite R; cbn [bind]. intros E.
  destruct (epoch_loop_fed _ _ _ E) as (evs & Tr & S).
  cbn [trace step app] in Tr, S. rewrite Tr.
  split; [exact S | exact (stepped_from_bounds _ _ _ S)].
Qed.

End Schedule.

Lemma scheduler_is_fed_the_step_counter_witness :
  exists g,
    train_main (default_args 1) [] (0 : @Net Toy.torch)
      (fun _ => [Toy.good_batch; Toy.nan_batch; Toy.good_batch]) [Toy.good_batch] = Ok g /\
    stepped_from 0 (batch_step_args (trace g)) (step g).
Proof.
  assert (E : exists g,
             train_main (default_args 1) [] (0 : @Net Toy.torch)
               (fun _ => [Toy.good_batch; Toy.nan_batch; Toy.good_batch])
               [Toy.good_batch] = Ok g)
    by (eexists; vm_compute; reflexivity).
  destruct E as [g E].
  exists g; split; [exact E |].
  exact (proj1 (scheduler_is_fed_the_step_counter (T := Toy.torch) (default_args 1)
                  (fun _ => [Toy.good_batch; Toy.nan_batch; Toy.good_batch])
                  [Toy.good_batch] [] 0 0 0 0 g eq_refl E)).
Defined.
